(** * Trajectory visualizer: upload classifier, item dispatcher, run details

    A shallow embedding of

    - [src/components/share/trajectory-list.tsx]
      ([TrajectoryList]: pre-filter, header label, renderer chain),
    - the upload component that follows it in the same file
      ([UploadTrajectory]: [processOpenHandsTrajectory], [onDrop] and the
      handlers of its [FileReader]),
    - the run details component ([RunDetails]: [handleArtifactSelect],
      [fetchRunDetails] and the render branches).

    The values the components work on come out of [JSON.parse] or of the
    network client, so they are JSON values; a missing property
    ([undefined]) is [None].  JavaScript operations that can throw return a
    [result]. *)

From Stdlib Require Import List String Ascii ZArith Bool Lia.
Import ListNotations.
Local Open Scope string_scope.
Set Warnings "-register-all".

(** ** JavaScript values and the operators the components use *)

Module Js.

(** A value produced by [JSON.parse].  Numbers are kept as integers: the
    components look at a number only to test whether it is zero
    (truthiness) or to compare a [length] with a constant.  An object is
    the list of its own properties. *)
Inductive json : Type :=
| JNull
| JBool (b : bool)
| JNum (n : Z)
| JStr (s : string)
| JArr (elems : list json)
| JObj (props : list (string * json)).

(** What a [throw] carries: an [Error] instance with its [name] and
    [message], or some other value. *)
Inductive exn : Type :=
| ErrorObj (name message : string)
| OtherThrown.

Inductive result (A : Type) : Type :=
| Ok (a : A)
| Throw (e : exn).
Arguments Ok {A} a.
Arguments Throw {A} e.

Definition bind {A B} (m : result A) (k : A -> result B) : result B :=
  match m with
  | Ok a => k a
  | Throw e => Throw e
  end.

Definition TypeError (message : string) : exn := ErrorObj "TypeError" message.

(** [error instanceof Error ? error.message : 'Unknown error'] *)
Definition message_or_unknown (e : exn) : string :=
  match e with
  | ErrorObj _ m => m
  | OtherThrown => "Unknown error"
  end.

(** ToBoolean; [None] is [undefined]. *)
Definition truthy (v : json) : bool :=
  match v with
  | JNull => false
  | JBool b => b
  | JNum n => negb (n =? 0)%Z
  | JStr s => negb (s =? "")
  | JArr _ | JObj _ => true
  end.

Definition truthy_opt (o : option json) : bool :=
  match o with
  | Some v => truthy v
  | None => false
  end.

Definition isArray (v : json) : bool :=
  match v with
  | JArr _ => true
  | _ => false
  end.

Definition isArray_opt (o : option json) : bool :=
  match o with
  | Some v => isArray v
  | None => false
  end.

Inductive type_tag : Type :=
| TUndefined | TObject | TBoolean | TNumber | TString.

(** The [typeof] operator. *)
Definition typeof (o : option json) : type_tag :=
  match o with
  | None => TUndefined
  | Some (JBool _) => TBoolean
  | Some (JNum _) => TNumber
  | Some (JStr _) => TString
  | Some JNull | Some (JArr _) | Some (JObj _) => TObject
  end.

Fixpoint lookup (k : string) (props : list (string * json)) : option json :=
  match props with
  | [] => None
  | (k', v) :: rest => if k' =? k then Some v else lookup k rest
  end.

(** Property read [v.k] on a value that is neither [null] nor
    [undefined].  The components ask for [length] and for data property
    names only ([action], [observation], [source], [entries], [history],
    [content], [fileType], ...); none of these is a method of a built-in
    prototype, except [entries] of arrays, which is never read from an
    array.  The [length] of a string counts the characters of the model's
    string, which is the JavaScript length for ASCII text. *)
Definition prop (v : json) (k : string) : option json :=
  match v with
  | JObj props => lookup k props
  | JArr elems =>
      if k =? "length" then Some (JNum (Z.of_nat (List.length elems))) else None
  | JStr s =>
      if k =? "length" then Some (JNum (Z.of_nat (String.length s))) else None
  | JNull | JBool _ | JNum _ => None
  end.

(** [v.k]: a [TypeError] on [null]. *)
Definition get (v : json) (k : string) : result (option json) :=
  match v with
  | JNull =>
      Throw (TypeError ("Cannot read properties of null (reading '" ++ k ++ "')"))
  | _ => Ok (prop v k)
  end.

(** [o?.k]: [undefined] on [null] and [undefined]. *)
Definition opt_get (o : option json) (k : string) : option json :=
  match o with
  | None | Some JNull => None
  | Some v => prop v k
  end.

(** [k in v], for the data property names above: a [TypeError] when [v]
    is not an object (arrays are objects and own none of these names). *)
Definition has (k : string) (v : json) : result bool :=
  match v with
  | JObj props =>
      Ok (match lookup k props with Some _ => true | None => false end)
  | JArr _ => Ok false
  | JNull | JBool _ | JNum _ | JStr _ =>
      Throw (TypeError ("Cannot use 'in' operator to search for '" ++ k
                        ++ "' in a value that is not an object"))
  end.

(** [o === "s"] *)
Definition is_str (o : option json) (s : string) : bool :=
  match o with
  | Some (JStr t) => t =? s
  | _ => false
  end.

(** [Object.keys(v)] throws on [null] and returns an array otherwise. *)
Definition Object_keys_ok (v : json) : result unit :=
  match v with
  | JNull => Throw (TypeError "Cannot convert undefined or null to object")
  | _ => Ok tt
  end.

(** *** [v > 50]

    The comparison converts [v] to a number first.  A string is read as a
    numeric literal (white space around it is dropped; the empty string is
    0; anything that is not a literal is [NaN], which is greater than
    nothing); an array is joined into a string and an object is printed as
    ["[object Object]"], unless the object owns a [toString] property: a
    JSON value is not a function, so no method is left to convert the
    object and the conversion throws.  White space is the ASCII white
    space. *)

Definition is_white_space (c : ascii) : bool :=
  let n := nat_of_ascii c in
  (n =? 9)%nat || (n =? 10)%nat || (n =? 11)%nat || (n =? 12)%nat
  || (n =? 13)%nat || (n =? 32)%nat.

Fixpoint skip_white_space (l : list ascii) : list ascii :=
  match l with
  | c :: rest => if is_white_space c then skip_white_space rest else l
  | [] => []
  end.

Definition trim (l : list ascii) : list ascii :=
  rev (skip_white_space (rev (skip_white_space l))).

(** The value of a digit: [0]-[9], [a]-[f], [A]-[F]. *)
Definition digit_of (c : ascii) : option Z :=
  let n := Z.of_nat (nat_of_ascii c) in
  if (48 <=? n)%Z && (n <=? 57)%Z then Some (n - 48)%Z
  else if (97 <=? n)%Z && (n <=? 102)%Z then Some (n - 87)%Z
  else if (65 <=? n)%Z && (n <=? 70)%Z then Some (n - 55)%Z
  else None.

(** The number written by [l] in [base], when every character is a digit
    of that base. *)
Fixpoint digits_in (base acc : Z) (l : list ascii) : option Z :=
  match l with
  | [] => Some acc
  | c :: rest =>
      match digit_of c with
      | Some d => if (d <? base)%Z then digits_in base (acc * base + d)%Z rest else None
      | None => None
      end
  end.

Definition number_in (base : Z) (l : list ascii) : option Z :=
  match l with
  | [] => None
  | _ => digits_in base 0 l
  end.

Definition is_decimal_digit (c : ascii) : bool :=
  let n := nat_of_ascii c in (48 <=? n)%nat && (n <=? 57)%nat.

(** The longest prefix of decimal digits, and what follows it. *)
Fixpoint decimal_digits (l : list ascii) : list ascii * list ascii :=
  match l with
  | c :: rest =>
      if is_decimal_digit c
      then let '(digits, after) := decimal_digits rest in (c :: digits, after)
      else ([], l)
  | [] => ([], [])
  end.

(** The exponent part, which may be missing: [e] or [E], a sign or none,
    and at least one digit. *)
Definition exponent_part (l : list ascii) : option Z :=
  match l with
  | [] => Some 0%Z
  | c :: rest =>
      if (c =? "e")%char || (c =? "E")%char then
        match rest with
        | sign :: digits =>
            if (sign =? "+")%char then number_in 10 digits
            else if (sign =? "-")%char then option_map Z.opp (number_in 10 digits)
            else number_in 10 rest
        | [] => None
        end
      else None
  end.

(** The double nearest to [mantissa * 10 ^ exponent] is greater than 50.
    50 and 51 are doubles, and the doubles next to 50 are [2 ^ -47] apart,
    the tie going to 50. *)
Definition exceeds_50 (mantissa exponent : Z) : bool :=
  if (0 <=? exponent)%Z then (50 <? mantissa * 10 ^ exponent)%Z
  else ((50 * 2 ^ 48 + 1) * 10 ^ (- exponent) <? mantissa * 2 ^ 48)%Z.

(** An unsigned decimal literal: [Infinity], or digits with an optional
    fraction and exponent, with a digit before or after the point. *)
Definition unsigned_decimal_gt_50 (l : list ascii) : bool :=
  if string_of_list_ascii l =? "Infinity" then true
  else
    let '(int_part, after_int) := decimal_digits l in
    let '(frac_part, after_frac) :=
      match after_int with
      | c :: rest => if (c =? ".")%char then decimal_digits rest else ([], after_int)
      | [] => ([], [])
      end in
    match (int_part ++ frac_part)%list with
    | [] => false
    | digits =>
        match digits_in 10 0 digits, exponent_part after_frac with
        | Some mantissa, Some exponent =>
            exceeds_50 mantissa (exponent - Z.of_nat (List.length frac_part))
        | _, _ => false
        end
    end.

(** A literal with a radix prefix, which takes no sign. *)
Definition radix_of (l : list ascii) : option (Z * list ascii) :=
  match l with
  | zero :: letter :: digits =>
      if (zero =? "0")%char then
        if (letter =? "x")%char || (letter =? "X")%char then Some (16%Z, digits)
        else if (letter =? "o")%char || (letter =? "O")%char then Some (8%Z, digits)
        else if (letter =? "b")%char || (letter =? "B")%char then Some (2%Z, digits)
        else None
      else None
  | _ => None
  end.

(** [s > 50] for a string. *)
Definition string_gt_50 (s : string) : bool :=
  let l := trim (list_ascii_of_string s) in
  match radix_of l with
  | Some (base, digits) =>
      match number_in base digits with
      | Some n => (50 <? n)%Z
      | None => false
      end
  | None =>
      match l with
      | [] => false
      | c :: rest =>
          if (c =? "+")%char then unsigned_decimal_gt_50 rest
          else if (c =? "-")%char then false
          else unsigned_decimal_gt_50 l
      end
  end.

(** The conversion to a primitive throws: the value is an object that
    owns a [toString] property, or an array that holds such a value. *)
Fixpoint conversion_throws (v : json) : bool :=
  match v with
  | JObj props =>
      match lookup "toString" props with
      | Some _ => true
      | None => false
      end
  | JArr elems => existsb conversion_throws elems
  | _ => false
  end.

(** The number a value converts to is greater than 50, when the
    conversion does not throw: [null] is 0, a boolean 0 or 1, an object
    [NaN]; an array of one element is that element printed, an empty array
    the empty string, and a longer one has a comma and is [NaN]. *)
Fixpoint converts_above_50 (v : json) : bool :=
  match v with
  | JNull | JBool _ | JObj _ => false
  | JNum n => (50 <? n)%Z
  | JStr s => string_gt_50 s
  | JArr [x] => converts_above_50 x
  | JArr _ => false
  end.

(** [v > 50]; [None] is [undefined], which converts to [NaN]. *)
Definition greater_than_50 (o : option json) : result bool :=
  match o with
  | None => Ok false
  | Some v =>
      if conversion_throws v
      then Throw (TypeError "Cannot convert object to primitive value")
      else Ok (converts_above_50 v)
  end.

End Js.

Import Js.

Declare Scope js_scope.
Notation "x <- m ;; k" := (bind m (fun x => k))
  (at level 61, m at next level, right associativity) : js_scope.
Local Open Scope js_scope.

(** ** [TrajectoryList] *)

Module TrajectoryList.

Inductive RendererKind : Type :=
| AgentStateChange | UserMessage | AssistantMessage
| CommandAction | CommandObservation
| IPythonAction | IPythonObservation
| FinishAction | ErrorObservation
| ReadAction | ReadObservation
| EditAction | EditObservation
| Unknown.

(** The type guards imported from [utils/share]: their bodies are not
    part of the component, which only fixes the order in which it asks
    them. *)
Class Guards : Type := {
  isAgentStateChange : json -> bool;
  isUserMessage : json -> bool;
  isAssistantMessage : json -> bool;
  isCommandAction : json -> bool;
  isCommandObservation : json -> bool;
  isIPythonAction : json -> bool;
  isIPythonObservation : json -> bool;
  isFinishAction : json -> bool;
  isErrorObservation : json -> bool;
  isReadAction : json -> bool;
  isReadObservation : json -> bool;
  isEditAction : json -> bool;
  isEditObservation : json -> bool
}.

(** [shouldDisplayItem], lines 41-54. *)
Definition shouldDisplayItem (item : json) : result bool :=
  a <- has "action" item ;;
  act <- (if a then get item "action" else Ok None) ;;
  if a && is_str act "change_agent_state" then Ok false
  else
    o <- has "observation" item ;;
    obs <- (if o then get item "observation" else Ok None) ;;
    if o && (match typeof obs with TString => true | _ => false end)
         && is_str obs "null"
    then Ok false
    else Ok true.

(** [Array.prototype.filter] with a callback that can throw. *)
Fixpoint filterM (f : json -> result bool) (l : list json) : result (list json) :=
  match l with
  | [] => Ok []
  | x :: rest =>
      b <- f x ;;
      rest' <- filterM f rest ;;
      Ok (if b then x :: rest' else rest')
  end.

Section Dispatch.
Context {G : Guards}.

(** The [if]/[else if] chain of lines 71-113. *)
Definition selectRenderer (item : json) : RendererKind :=
  if isAgentStateChange item then AgentStateChange
  else if isUserMessage item then UserMessage
  else if isAssistantMessage item then AssistantMessage
  else if isCommandAction item then CommandAction
  else if isCommandObservation item then CommandObservation
  else if isIPythonAction item then IPythonAction
  else if isIPythonObservation item then IPythonObservation
  else if isFinishAction item then FinishAction
  else if isErrorObservation item then ErrorObservation
  else if isReadAction item then ReadAction
  else if isReadObservation item then ReadObservation
  else if isEditAction item then EditAction
  else if isEditObservation item then EditObservation
  else Unknown.

(** One rendered card: its [key] (the index in the filtered list), the
    renderer chosen and the item handed to it. *)
Record Card : Type := {
  card_key : nat;
  card_kind : RendererKind;
  card_item : json
}.

Fixpoint cards_from (index : nat) (items : list json) : list Card :=
  match items with
  | [] => []
  | item :: rest =>
      {| card_key := index; card_kind := selectRenderer item; card_item := item |}
      :: cards_from (S index) rest
  end.

(** What the component renders: the number in the header
    "Trajectory Items (N items)", the cards and whether the
    "No trajectory items to display." paragraph is shown. *)
Record Rendered : Type := {
  header_count : nat;
  cards : list Card;
  empty_notice : bool
}.

(** The component, lines 40-126.  [trajectory.filter] exists on arrays
    only. *)
Definition TrajectoryList (trajectory : option json) : result Rendered :=
  match trajectory with
  | Some (JArr items) =>
      filteredTrajectory <- filterM shouldDisplayItem items ;;
      Ok {| header_count := List.length filteredTrajectory;
            cards := cards_from 0 filteredTrajectory;
            empty_notice := (List.length filteredTrajectory =? 0)%nat |}
  | Some JNull | None =>
      Throw (TypeError "Cannot read properties of null or undefined (reading 'filter')")
  | Some _ => Throw (TypeError "trajectory.filter is not a function")
  end.

End Dispatch.

End TrajectoryList.

(** ** [UploadTrajectory] *)

Module UploadTrajectory.

(** The part of a dropped [File] the component reads. *)
Record File : Type := {
  file_name : string;
  file_size : Z
}.

(** [onUpload] is required; [onUploadStart] is optional. *)
Record Props : Type := {
  onUploadStart_given : bool
}.

(** What the component does to the outside: calls of the host's callbacks,
    [window.alert] and [reader.readAsText]. *)
Inductive Effect : Type :=
| HostUploadStart
| HostUpload (content : json)
| WindowAlert (message : string)
| ReadAsText (file : File).

(** A callback registered with [setTimeout]; the component registers one
    kind only, the delayed delivery of lines 225-233, which closes over
    [processedTrajectory]. *)
Record Timer : Type := {
  delay_ms : nat;
  processedTrajectory : json
}.

(** The two [useState] cells, the effects so far (oldest first) and the
    timers not yet fired. *)
Record State : Type := {
  isProcessing : bool;
  error : option string;
  effects : list Effect;
  timers : list Timer
}.

Definition setIsProcessing (b : bool) (st : State) : State :=
  {| isProcessing := b; error := error st;
     effects := effects st; timers := timers st |}.

Definition setError (e : option string) (st : State) : State :=
  {| isProcessing := isProcessing st; error := e;
     effects := effects st; timers := timers st |}.

Definition emit (e : Effect) (st : State) : State :=
  {| isProcessing := isProcessing st; error := error st;
     effects := effects st ++ [e]; timers := timers st |}.

Definition setTimeout (t : Timer) (st : State) : State :=
  {| isProcessing := isProcessing st; error := error st;
     effects := effects st; timers := timers st ++ [t] |}.

Definition initial : State :=
  {| isProcessing := false; error := None; effects := []; timers := [] |}.

(** The [disabled] option handed to the drop zone. *)
Definition disabled (st : State) : bool := isProcessing st.

(** [processOpenHandsTrajectory], lines 144-178. *)
Definition processOpenHandsTrajectory (content : json) : result json :=
  match content with
  | JArr elems =>
      match elems with
      | first :: _ =>
          a <- has "action" first ;;
          s <- (if a then has "source" first else Ok false) ;;
          if a && s then Ok content
          else
            o <- has "observation" first ;;
            s' <- (if o then has "source" first else Ok false) ;;
            if o && s' then Ok content else Ok content
      | [] => Ok content
      end
  | _ =>
      entries <- get content "entries" ;;
      if truthy_opt entries && isArray_opt entries then Ok content
      else
        history <- get content "history" ;;
        match history with
        | Some h => if truthy h && isArray h then Ok h else Ok content
        | None => Ok content
        end
  end.

(** The debugging output of lines 202-209 writes to the console only, but
    [Object.keys(content)] can throw.  [JSON.stringify] of a JSON value is
    a string, so the array branch cannot. *)
Definition log_parsed (content : json) : result unit :=
  if isArray content then Ok tt else Object_keys_ok content.

(** [{ content: { trajectoryData: processedTrajectory, fileType: 'trajectory' } }] *)
Definition trajectory_upload (processed : json) : json :=
  JObj [("content",
         JObj [("trajectoryData", processed); ("fileType", JStr "trajectory")])].

(** [{ content: processedTrajectory }] *)
Definition jsonl_upload (processed : json) : json :=
  JObj [("content", processed)].

Definition large_threshold : nat := 500.

(** The [try] block of [reader.onload], lines 198-242, after [JSON.parse]
    returned [content]. *)
Definition onload_try (content : json) (st : State) : result State :=
  _ <- log_parsed content ;;
  processed <- processOpenHandsTrajectory content ;;
  jsonl <- (if truthy processed
               && (match typeof (Some processed) with TObject => true | _ => false end)
            then has "jsonlContent" processed else Ok false) ;;
  if jsonl then
    Ok (setIsProcessing false (emit (HostUpload (jsonl_upload processed)) st))
  else
    match processed with
    | JArr items =>
        if (large_threshold <? List.length items)%nat then
          Ok (setTimeout {| delay_ms := 100; processedTrajectory := processed |} st)
        else
          Ok (setIsProcessing false
                (emit (HostUpload (trajectory_upload processed)) st))
    | _ =>
        Ok (setIsProcessing false
              (emit (HostUpload (trajectory_upload processed)) st))
    end.

Definition parse_failure_text (e : exn) : string :=
  "Failed to parse the trajectory file: " ++ message_or_unknown e
  ++ ". Please make sure it is a valid JSON file.".

Definition parse_failure_alert : string :=
  "Failed to parse the trajectory file. Please make sure it is a valid JSON file.".

(** The [catch] block, lines 243-248. *)
Definition onload_catch (e : exn) (st : State) : State :=
  setIsProcessing false
    (emit (WindowAlert parse_failure_alert)
       (setError (Some (parse_failure_text e)) st)).

(** [reader.onload], lines 196-249.  [parsed] is what
    [JSON.parse(reader.result)] did with the file's text: it returned a
    value or threw. *)
Definition reader_onload (parsed : result json) (st : State) : State :=
  match bind parsed (fun content => onload_try content st) with
  | Ok st' => st'
  | Throw e => onload_catch e st
  end.

(** [reader.onerror], lines 251-255; [message] is [reader.error?.message]. *)
Definition reader_onerror (message : option string) (st : State) : State :=
  let m := match message with
           | Some m => if m =? "" then "Unknown error" else m
           | None => "Unknown error"
           end in
  setIsProcessing false (setError (Some ("Error reading file: " ++ m)) st).

(** [onDrop], lines 180-258, up to the point where the reader is started. *)
Definition onDrop (P : Props) (acceptedFiles : list File) (st : State) : State :=
  match acceptedFiles with
  | [] => st
  | file :: _ =>
      let st := setIsProcessing true st in
      let st := setError None st in
      let st := if onUploadStart_given P then emit HostUploadStart st else st in
      emit (ReadAsText file) st
  end.

(** The event loop runs the oldest timer: the callback of lines 225-233. *)
Definition fire_timer (st : State) : State :=
  match timers st with
  | [] => st
  | t :: rest =>
      let st := {| isProcessing := isProcessing st; error := error st;
                   effects := effects st; timers := rest |} in
      setIsProcessing false
        (emit (HostUpload (trajectory_upload (processedTrajectory t))) st)
  end.

(** The host's [onUpload] was called (at least once) in these effects. *)
Definition upload_called (es : list Effect) : bool :=
  existsb (fun e => match e with HostUpload _ => true | _ => false end) es.

End UploadTrajectory.

(** ** [RunDetails] *)

Module RunDetails.

Record Artifact : Type := {
  artifact_id : Z;
  artifact_name : string
}.

Record WorkflowRun : Type := {
  run_id : Z;
  conclusion : option string
}.

(** [RunDetailsResponse].  [artifacts] is [None] when [details.artifacts]
    or [details.artifacts.artifacts] is missing, the two cases the optional
    chaining of line 70 allows for. *)
Record RunDetailsResponse : Type := {
  run : WorkflowRun;
  jobs : list json;
  artifacts : option (list Artifact)
}.

Record Props : Type := {
  owner : string;
  repo : string;
  prop_run : option WorkflowRun;
  initialContent : option json
}.

(** The network client of [services/api]: each operation resolves with a
    value or rejects. *)
Class Api : Type := {
  getRunDetails : string -> string -> Z -> result RunDetailsResponse;
  getArtifactContent : string -> string -> Z -> result json
}.

(** What a run of the effect does to the outside, oldest first. *)
Inductive Event : Type :=
| GetRunDetails (owner repo : string) (runId : Z)
| GetArtifactContent (owner repo : string) (artifactId : Z)
| Wait (ms : nat).

(** The six [useState] cells; [artifactContent] is [JNull] for [null]. *)
Record State : Type := {
  runDetails : option RunDetailsResponse;
  artifactContent : json;
  loading : bool;
  contentLoading : bool;
  processingArtifact : bool;
  error : option string
}.

Definition initial : State :=
  {| runDetails := None; artifactContent := JNull; loading := true;
     contentLoading := false; processingArtifact := false; error := None |}.

Definition setRunDetails (d : option RunDetailsResponse) (st : State) : State :=
  {| runDetails := d; artifactContent := artifactContent st;
     loading := loading st; contentLoading := contentLoading st;
     processingArtifact := processingArtifact st; error := error st |}.

Definition setArtifactContent (c : json) (st : State) : State :=
  {| runDetails := runDetails st; artifactContent := c;
     loading := loading st; contentLoading := contentLoading st;
     processingArtifact := processingArtifact st; error := error st |}.

Definition setLoading (b : bool) (st : State) : State :=
  {| runDetails := runDetails st; artifactContent := artifactContent st;
     loading := b; contentLoading := contentLoading st;
     processingArtifact := processingArtifact st; error := error st |}.

Definition setContentLoading (b : bool) (st : State) : State :=
  {| runDetails := runDetails st; artifactContent := artifactContent st;
     loading := loading st; contentLoading := b;
     processingArtifact := processingArtifact st; error := error st |}.

Definition setProcessingArtifact (b : bool) (st : State) : State :=
  {| runDetails := runDetails st; artifactContent := artifactContent st;
     loading := loading st; contentLoading := contentLoading st;
     processingArtifact := b; error := error st |}.

Definition setError (e : option string) (st : State) : State :=
  {| runDetails := runDetails st; artifactContent := artifactContent st;
     loading := loading st; contentLoading := contentLoading st;
     processingArtifact := processingArtifact st; error := e |}.

(** [length > 50], with the conversion JavaScript applies when the
    [length] is not a number (an own property of a plain object). *)
Definition more_than_50 (len : option json) : result bool :=
  greater_than_50 len.

(** The test of line 35; [||] does not evaluate its right side when the
    left one is true. *)
Definition is_large (content : json) : result bool :=
  let c := opt_get (Some content) "content" in
  bind (more_than_50 (opt_get (opt_get c "history") "length"))
    (fun history_large =>
       if history_large then Ok true
       else more_than_50 (opt_get (opt_get c "jsonlHistory") "length")).

Section WithApi.
Context {A : Api}.

(** [handleArtifactSelect], lines 25-48; [None] is a falsy [artifact].
    The [catch] block takes a rejected request and a size test that
    throws alike. *)
Definition handleArtifactSelect (P : Props) (artifact : option Artifact)
    (st : State) : State * list Event :=
  match artifact with
  | None => (st, [])
  | Some a =>
      let st := setContentLoading true st in
      let call := GetArtifactContent (owner P) (repo P) (artifact_id a) in
      let '(st, evs) :=
        match getArtifactContent (owner P) (repo P) (artifact_id a) with
        | Ok content =>
            match is_large content with
            | Ok true =>
                (setArtifactContent content (setProcessingArtifact true st),
                 [call; Wait 500])
            | Ok false => (setArtifactContent content st, [call])
            | Throw _ => (setArtifactContent JNull st, [call])
            end
        | Throw _ => (setArtifactContent JNull st, [call])
        end in
      (setProcessingArtifact false (setContentLoading false st), evs)
  end.

(** The [else] branch of lines 65-73: the details are fetched, and a
    single artifact of a successful run is selected at once.  [Throw] is a
    rejected [getRunDetails], which leaves the [try] block. *)
Definition fetch_details (P : Props) (r : WorkflowRun) (st : State)
    : result State * list Event :=
  let call := GetRunDetails (owner P) (repo P) (run_id r) in
  match getRunDetails (owner P) (repo P) (run_id r) with
  | Throw e => (Throw e, [call])
  | Ok details =>
      let st := setArtifactContent JNull (setRunDetails (Some details) st) in
      match artifacts details, conclusion r with
      | Some [artifact], Some c =>
          if c =? "success" then
            let '(st, evs) := handleArtifactSelect P (Some artifact) st in
            (Ok st, call :: evs)
          else (Ok st, [call])
      | _, _ => (Ok st, [call])
      end
  end.

(** One run of [fetchRunDetails], lines 51-84.  The [finally] block reads
    the [processingArtifact] of the render that created the effect, that
    is, of the state the run starts from. *)
Definition fetchRunDetails (P : Props) (st0 : State) : State * list Event :=
  match prop_run P with
  | None => (st0, [])
  | Some r =>
      if (owner P =? "") || (repo P =? "") then (st0, [])
      else
        let st := setProcessingArtifact false (setLoading true st0) in
        let '(body, evs) :=
          if truthy_opt (initialContent P) then
            let st := setRunDetails
                        (Some {| run := r; jobs := []; artifacts := Some [] |}) st in
            let ic := match initialContent P with Some ic => ic | None => JNull end in
            (Ok (setArtifactContent ic st), [])
          else fetch_details P r st in
        let st :=
          match body with
          | Ok st' => setError None st'
          | Throw _ => setError (Some "Failed to load run details. Please try again.") st
          end in
        (if processingArtifact st0 then st else setLoading false st, evs)
  end.

End WithApi.

(** *** Rendering, lines 89-199 *)

(** The generic detail view of lines 122-198: whether the "Artifact Data"
    section is shown, the count in the heading of each raw dump that is
    shown ([history.length], which is [None] when the value has no
    [length]), and whether the "No artifact content available." message is
    shown. *)
Record Details : Type := {
  artifact_data : bool;
  history_dump : option (option json);
  jsonlHistory_dump : option (option json);
  no_content_message : bool
}.

Inductive View : Type :=
| Skeleton
| ErrorPanel (message : string)
| JsonlViewer (content : json)
| TrajectoryViewer (list : TrajectoryList.Rendered)
| DetailsView (d : Details).

(** [{value && (... value.length ...)}] *)
Definition dump_of (v : option json) : option (option json) :=
  if truthy_opt v then Some (opt_get v "length") else None.

Definition details_of (content : option json) : Details :=
  {| artifact_data :=
       truthy_opt content
       && (truthy_opt (opt_get content "metrics")
           || (truthy_opt content && negb (truthy_opt (opt_get content "issue"))));
     history_dump := dump_of (opt_get content "history");
     jsonlHistory_dump := dump_of (opt_get content "jsonlHistory");
     no_content_message := negb (truthy_opt content) |}.

Definition error_text (e : option string) : option string :=
  match e with
  | Some m => if m =? "" then None else Some m
  | None => None
  end.

(** The tests of lines 102 and 112 on [artifactContent?.content]. *)
Definition is_jsonl (content : option json) : bool :=
  is_str (opt_get content "fileType") "jsonl"
  && truthy_opt (opt_get content "jsonlContent").

Definition is_trajectory (content : option json) : bool :=
  is_str (opt_get content "fileType") "trajectory"
  && truthy_opt (opt_get content "trajectoryData").

Definition render {G : TrajectoryList.Guards} (st : State) : result View :=
  if loading st || contentLoading st || processingArtifact st then Ok Skeleton
  else
    match error_text (error st), runDetails st with
    | Some m, _ => Ok (ErrorPanel m)
    | None, None => Ok (ErrorPanel "Failed to load run details")
    | None, Some _ =>
        let content := opt_get (Some (artifactContent st)) "content" in
        if is_jsonl content then
          match opt_get content "jsonlContent" with
          | Some (JStr s) => Ok (JsonlViewer (JStr s))
          | _ => Throw (TypeError "jsonlContent.substring is not a function")
          end
        else if is_trajectory content then
          list <- TrajectoryList.TrajectoryList (opt_get content "trajectoryData") ;;
          Ok (TrajectoryViewer list)
        else Ok (DetailsView (details_of content))
    end.

End RunDetails.

(** ** The specification's side *)

Module Spec.

Import TrajectoryList.

(** The pre-filter as the specification words it: an item is dropped when
    its [action] equals ["change_agent_state"] or its [observation] is the
    string ["null"]. *)
Definition dropped (props : list (string * json)) : bool :=
  is_str (lookup "action" props) "change_agent_state"
  || is_str (lookup "observation" props) "null".

(** The thirteen shape checks in the priority order of the specification;
    [Unknown] is the fallback and has no check. *)
Definition priority : list RendererKind :=
  [AgentStateChange; UserMessage; AssistantMessage; CommandAction;
   CommandObservation; IPythonAction; IPythonObservation; FinishAction;
   ErrorObservation; ReadAction; ReadObservation; EditAction;
   EditObservation].

Definition all_kinds : list RendererKind := priority ++ [Unknown].

Definition guard_of {G : Guards} (k : RendererKind) : json -> bool :=
  match k with
  | AgentStateChange => isAgentStateChange
  | UserMessage => isUserMessage
  | AssistantMessage => isAssistantMessage
  | CommandAction => isCommandAction
  | CommandObservation => isCommandObservation
  | IPythonAction => isIPythonAction
  | IPythonObservation => isIPythonObservation
  | FinishAction => isFinishAction
  | ErrorObservation => isErrorObservation
  | ReadAction => isReadAction
  | ReadObservation => isReadObservation
  | EditAction => isEditAction
  | EditObservation => isEditObservation
  | Unknown => fun _ => true
  end.

(** First match wins; no match is [Unknown]. *)
Definition first_match {G : Guards} (item : json) : RendererKind :=
  match find (fun k => guard_of k item) priority with
  | Some k => k
  | None => Unknown
  end.

(** [needle] occurs in [hay]. *)
Fixpoint contains (needle hay : string) : bool :=
  String.prefix needle hay
  || match hay with
     | EmptyString => false
     | String _ rest => contains needle rest
     end.

(** A property is present, whatever its value. *)
Definition present (content : option json) (k : string) : bool :=
  match opt_get content k with
  | Some _ => true
  | None => false
  end.

(** The generic detail view as the specification words it: the summary
    section when [metrics] is present or [issue] is not, each raw dump with
    its count when the field is present, and the empty-state message when
    none of the four fields is present. *)
Definition details_as_specified (content : option json) : RunDetails.Details :=
  {| RunDetails.artifact_data :=
       present content "metrics" || negb (present content "issue");
     RunDetails.history_dump :=
       if present content "history"
       then Some (opt_get (opt_get content "history") "length") else None;
     RunDetails.jsonlHistory_dump :=
       if present content "jsonlHistory"
       then Some (opt_get (opt_get content "jsonlHistory") "length") else None;
     RunDetails.no_content_message :=
       negb (present content "metrics") && negb (present content "history")
       && negb (present content "jsonlHistory") && negb (present content "issue") |}.

(** The report of a parse failure as the specification words it: the
    message shown inline and the text of the alert both contain the name
    of the file and the message of the parser. *)
Definition names_file_and_cause (name cause : string)
    (st : UploadTrajectory.State) : Prop :=
  (exists e, UploadTrajectory.error st = Some e
             /\ contains name e = true /\ contains cause e = true)
  /\ (exists a, In (UploadTrajectory.WindowAlert a) (UploadTrajectory.effects st)
                /\ contains name a = true /\ contains cause a = true).

(** Modelled from the spec: the type guards of [utils/share], which the
    dispatcher imports; section 4.2 gives each as one field compared with
    one string. *)
#[local] Instance guards : Guards := {
  isAgentStateChange item := is_str (opt_get (Some item) "action") "change_agent_state";
  isUserMessage item := is_str (opt_get (Some item) "role") "user";
  isAssistantMessage item := is_str (opt_get (Some item) "role") "assistant";
  isCommandAction item := is_str (opt_get (Some item) "action") "run";
  isCommandObservation item := is_str (opt_get (Some item) "observation") "run";
  isIPythonAction item := is_str (opt_get (Some item) "action") "run_ipython";
  isIPythonObservation item := is_str (opt_get (Some item) "observation") "run_ipython";
  isFinishAction item := is_str (opt_get (Some item) "action") "finish";
  isErrorObservation item := is_str (opt_get (Some item) "observation") "error";
  isReadAction item := is_str (opt_get (Some item) "action") "read";
  isReadObservation item := is_str (opt_get (Some item) "observation") "read";
  isEditAction item := is_str (opt_get (Some item) "action") "edit";
  isEditObservation item := is_str (opt_get (Some item) "observation") "edit"
}.

End Spec.

(** ** Concrete inputs *)

Module Samples.

Import RunDetails.

Definition openhands_item : json :=
  JObj [("action", JStr "run"); ("source", JStr "agent")].

Definition a_run : WorkflowRun :=
  {| run_id := 7; conclusion := Some "success" |}.

Definition an_artifact : Artifact :=
  {| artifact_id := 42; artifact_name := "trajectory" |}.

Definition the_details : RunDetailsResponse :=
  {| run := a_run; jobs := []; artifacts := Some [an_artifact] |}.

Definition an_artifact_content : json :=
  JObj [("content", JObj [("metrics", JObj [("accumulated_cost", JNum 1)])])].

(** [{ content: { fileType: "trajectory", trajectoryData: [...] } }] with a
    command and a state change. *)
Definition two_item_artifact : json :=
  JObj [("content",
         JObj [("fileType", JStr "trajectory");
               ("trajectoryData",
                JArr [JObj [("action", JStr "run");
                            ("args", JObj [("command", JStr "ls")])];
                      JObj [("action", JStr "change_agent_state")]])])].

(** A client that answers every request. *)
#[local] Instance api : Api := {
  getRunDetails _ _ _ := Ok the_details;
  getArtifactContent _ _ _ := Ok an_artifact_content
}.

Definition props : Props :=
  {| owner := "OpenHands"; repo := "trajectory-visualizer";
     prop_run := Some a_run; initialContent := None |}.

(** The state once the details are loaded and [artifactContent] is set. *)
Definition loaded (artifactContent : json) : State :=
  {| runDetails := Some the_details; artifactContent := artifactContent;
     loading := false; contentLoading := false; processingArtifact := false;
     error := None |}.

End Samples.

(** ** Shapes of values, for stating what the components do with them *)

Module Shape.

(** A value the [in] operator accepts: an object or an array. *)
Definition object_like (v : json) : bool :=
  match v with
  | JObj _ | JArr _ => true
  | _ => false
  end.

(** An item the pre-filter lets through: an array owns neither [action]
    nor [observation]. *)
Definition kept (item : json) : bool :=
  match item with
  | JObj props => negb (Spec.dropped props)
  | _ => true
  end.

(** [null], and a non-empty array whose first element is not an object. *)
Definition unclassifiable (content : json) : bool :=
  match content with
  | JNull => true
  | JArr (first :: _) => negb (object_like first)
  | _ => false
  end.

(** The argument [onUpload] gets for a classified value:
    [{content: value}] when the value is an object with a [jsonlContent]
    property, else
    [{content: {trajectoryData: value, fileType: "trajectory"}}]. *)
Definition payload_of (processed : json) : json :=
  match processed with
  | JObj props =>
      match lookup "jsonlContent" props with
      | Some _ => JObj [("content", processed)]
      | None =>
          JObj [("content",
                 JObj [("trajectoryData", processed);
                       ("fileType", JStr "trajectory")])]
      end
  | _ =>
      JObj [("content",
             JObj [("trajectoryData", processed);
                   ("fileType", JStr "trajectory")])]
  end.

(** How the read of a dropped file ends: [reader.onload] fires, and
    [JSON.parse] returns or throws, or [reader.onerror] fires, with the
    reader's message if it has one. *)
Inductive ReadEnd : Type :=
| Loaded (parsed : result json)
| ReadFailed (message : option string).

Definition finish_read (outcome : ReadEnd) (st : UploadTrajectory.State)
    : UploadTrajectory.State :=
  match outcome with
  | Loaded parsed => UploadTrajectory.reader_onload parsed st
  | ReadFailed message => UploadTrajectory.reader_onerror message st
  end.

(** The state [reader.onload] leaves for a classified value: the payload
    is handed over at once, unless the value is an array of more than 500
    elements, for which a timer is registered. *)
Definition after_classification (processed : json)
    (st : UploadTrajectory.State) : UploadTrajectory.State :=
  let deliver :=
    UploadTrajectory.setIsProcessing false
      (UploadTrajectory.emit (UploadTrajectory.HostUpload (payload_of processed)) st) in
  match processed with
  | JArr items =>
      if (500 <? List.length items)%nat
      then UploadTrajectory.setTimeout
             {| UploadTrajectory.delay_ms := 100;
                UploadTrajectory.processedTrajectory := processed |} st
      else deliver
  | _ => deliver
  end.

(** The effects a drop adds before the file is read. *)
Definition drop_effects (P : UploadTrajectory.Props) (file : UploadTrajectory.File)
    : list UploadTrajectory.Effect :=
  (if UploadTrajectory.onUploadStart_given P
   then [UploadTrajectory.HostUploadStart] else [])
  ++ [UploadTrajectory.ReadAsText file].



End Shape.

(** ** More concrete inputs *)

Module Cases.

Import RunDetails.

(** A client whose artifact request is rejected. *)
Definition failing_artifact_api : Api :=
  {| getRunDetails _ _ _ := Ok Samples.the_details;
     getArtifactContent _ _ _ := Throw (ErrorObj "Error" "Network Error") |}.

(** A client whose every request is rejected. *)
Definition failing_api : Api :=
  {| getRunDetails _ _ _ := Throw (ErrorObj "Error" "Network Error");
     getArtifactContent _ _ _ := Throw (ErrorObj "Error" "Network Error") |}.

(** A client that reports two artifacts. *)
Definition two_artifacts_api : Api :=
  {| getRunDetails _ _ _ :=
       Ok {| run := Samples.a_run; jobs := [];
             artifacts := Some [Samples.an_artifact;
                                {| artifact_id := 43; artifact_name := "logs" |}] |};
     getArtifactContent _ _ _ := Ok Samples.an_artifact_content |}.

Definition two_items : list (list (string * json)) :=
  [[("action", JStr "run"); ("args", JObj [("command", JStr "ls")])];
   [("action", JStr "change_agent_state")]].

(** The properties of a view opened on uploaded content. *)
Definition uploaded_props (content : json) : Props :=
  {| owner := "OpenHands"; repo := "trajectory-visualizer";
     prop_run := Some Samples.a_run; initialContent := Some content |}.

Definition a_file : UploadTrajectory.File :=
  {| UploadTrajectory.file_name := "trajectory.json";
     UploadTrajectory.file_size := 64 |}.

Definition with_start : UploadTrajectory.Props :=
  {| UploadTrajectory.onUploadStart_given := true |}.

(** An artifact with a history of [n] entries, and a client serving it. *)
Definition artifact_with_history (n : nat) : json :=
  JObj [("content", JObj [("history", JArr (repeat Samples.openhands_item n))])].

Definition history_api (n : nat) : Api :=
  {| getRunDetails _ _ _ := Ok Samples.the_details;
     getArtifactContent _ _ _ := Ok (artifact_with_history n) |}.

Definition history_file : json :=
  JObj [("history", JArr [Samples.openhands_item])].

End Cases.

(** ** Facts about the operators *)

Section JsFacts.

Lemma is_str_spec (o : option json) (s : string) :
  is_str o s = true <-> o = Some (JStr s).
Proof.
  destruct o as [[| | |t| |]|]; simpl; split; try discriminate.
  - intros H. apply String.eqb_eq in H. now subst.
  - intros H. injection H as ->. apply String.eqb_refl.
Qed.

Lemma has_object (k : string) (props : list (string * json)) :
  has k (JObj props)
  = Ok (match lookup k props with Some _ => true | None => false end).
Proof. reflexivity. Qed.

Lemma prefix_app (n rest : string) : String.prefix n (n ++ rest) = true.
Proof.
  induction n as [|c n IH]; simpl.
  - now destruct rest.
  - destruct (Ascii.ascii_dec c c) as [_|ne]; [exact IH | now elim ne].
Qed.

Lemma contains_prefix (n hay : string) :
  String.prefix n hay = true -> Spec.contains n hay = true.
Proof. destruct hay; cbn [Spec.contains]; intros ->; reflexivity. Qed.

Lemma contains_infix (a n b : string) : Spec.contains n (a ++ n ++ b) = true.
Proof.
  induction a as [|c a IH].
  - cbn [append]. apply contains_prefix, prefix_app.
  - cbn [append Spec.contains]. rewrite IH. apply orb_true_r.
Qed.

Lemma find_skips {A : Type} (f : A -> bool) (before after : list A) (k : A) :
  ~ In k before ->
  find f (before ++ k :: after) = Some k ->
  forallb (fun x => negb (f x)) before = true.
Proof.
  induction before as [|b before IH]; intros Hnotin F; [reflexivity|].
  cbn [app find] in F. cbn [forallb].
  destruct (f b) eqn:Hb.
  - injection F as ->. elim Hnotin. now left.
  - cbn. apply IH; [|exact F]. intros Hin. apply Hnotin. now right.
Qed.

Lemma find_none_all {A : Type} (f : A -> bool) (l : list A) :
  find f l = None -> forallb (fun x => negb (f x)) l = true.
Proof.
  induction l as [|x l IH]; [reflexivity|].
  cbn [find forallb]. destruct (f x); [discriminate|]. exact IH.
Qed.

End JsFacts.

(** ** The pre-filter and the header label *)

Section PreFilter.

Import TrajectoryList.

Lemma shouldDisplayItem_object (props : list (string * json)) :
  shouldDisplayItem (JObj props) = Ok (negb (Spec.dropped props)).
Proof.
  unfold shouldDisplayItem, Spec.dropped, get, prop.
  rewrite !has_object. cbn [bind].
  destruct (lookup "action" props) as [[| | |a| |]|]; cbn;
    try destruct (a =? "change_agent_state"); cbn;
    destruct (lookup "observation" props) as [[| | |o| |]|]; cbn;
    try destruct (o =? "null"); reflexivity.
Qed.

(** C2.  The pre-filter drops an item exactly when its [action] is
    ["change_agent_state"] or its [observation] is the string ["null"];
    an item whose [observation] is the JSON [null] is dropped only for its
    [action], and [{observation: null}] is kept while
    [{observation: "null"}] is dropped. *)
Theorem prefilter_drops_exactly :
  (forall props,
      exists keep,
        shouldDisplayItem (JObj props) = Ok keep
        /\ (keep = false
            <-> lookup "action" props = Some (JStr "change_agent_state")
                \/ lookup "observation" props = Some (JStr "null")))
  /\ (forall props,
         lookup "observation" props = Some JNull ->
         shouldDisplayItem (JObj props)
         = Ok (negb (is_str (lookup "action" props) "change_agent_state")))
  /\ shouldDisplayItem (JObj [("observation", JNull)]) = Ok true
  /\ shouldDisplayItem (JObj [("observation", JStr "null")]) = Ok false.
Proof.
  repeat split.
  - intros props. exists (negb (Spec.dropped props)). split.
    + apply shouldDisplayItem_object.
    + unfold Spec.dropped. rewrite negb_false_iff, orb_true_iff, !is_str_spec.
      reflexivity.
  - intros props H. rewrite shouldDisplayItem_object. unfold Spec.dropped.
    rewrite H. cbn. now rewrite orb_false_r.
Qed.

Lemma filterM_objects (items : list (list (string * json))) :
  filterM shouldDisplayItem (map JObj items)
  = Ok (map JObj (filter (fun props => negb (Spec.dropped props)) items)).
Proof.
  induction items as [|props items IH]; [reflexivity|].
  cbn [map filterM filter]. rewrite shouldDisplayItem_object, IH. cbn [bind].
  now destruct (negb (Spec.dropped props)).
Qed.

Lemma cards_from_length {G : Guards} (items : list json) (i : nat) :
  List.length (cards_from i items) = List.length items.
Proof.
  revert i. induction items as [|x items IH]; intros i; cbn; [|rewrite IH]; reflexivity.
Qed.

(** C6.  The number in the header is the number of items the pre-filter
    keeps, which is the number of cards and never exceeds the length of
    the input; for [{action: "run", args: {command: "ls"}}] followed by
    [{action: "change_agent_state"}] it is 1, also when the two items
    arrive as the [trajectoryData] of an artifact in the run details view. *)
Theorem header_count_is_post_filter {G : Guards} :
  (forall items : list (list (string * json)),
      exists r,
        TrajectoryList (Some (JArr (map JObj items))) = Ok r
        /\ header_count r
           = List.length (filter (fun props => negb (Spec.dropped props)) items)
        /\ header_count r = List.length (cards r)
        /\ header_count r <= List.length items)
  /\ (exists r,
         TrajectoryList
           (Some (JArr [JObj [("action", JStr "run");
                              ("args", JObj [("command", JStr "ls")])];
                        JObj [("action", JStr "change_agent_state")]]))
         = Ok r
         /\ header_count r = 1)
  /\ (exists r,
         RunDetails.render (Samples.loaded Samples.two_item_artifact)
         = Ok (RunDetails.TrajectoryViewer r)
         /\ header_count r = 1).
Proof.
  split; [|split].
  - intros items. unfold TrajectoryList. rewrite filterM_objects. cbn [bind].
    eexists. split; [reflexivity|]. cbn [header_count cards].
    rewrite cards_from_length, !length_map. repeat split.
    apply filter_length_le.
  - eexists. split; reflexivity.
  - eexists. split; reflexivity.
Qed.

End PreFilter.

(** ** The renderer chain *)

Section Chain.

Import TrajectoryList.
Context {G : Guards}.

Lemma priority_NoDup : NoDup Spec.priority.
Proof.
  unfold Spec.priority.
  repeat (constructor; [cbn; intuition discriminate|]). constructor.
Qed.

Lemma Unknown_not_in_priority : ~ In Unknown Spec.priority.
Proof. cbn. intuition discriminate. Qed.

(** C5.  The chain of the component is the first match in the priority
    order of the specification, with [Unknown] when no check holds; so
    every item gets one of the fourteen kinds, the check of the chosen
    kind holds and no check before it does. *)
Theorem selectRenderer_first_match (item : json) :
  selectRenderer item = Spec.first_match item
  /\ In (selectRenderer item) Spec.all_kinds
  /\ Spec.guard_of (selectRenderer item) item = true
  /\ (forall before after,
         Spec.priority = (before ++ selectRenderer item :: after)%list ->
         forallb (fun k => negb (Spec.guard_of k item)) before = true)
  /\ (selectRenderer item = Unknown ->
      forallb (fun k => negb (Spec.guard_of k item)) Spec.priority = true).
Proof.
  assert (E : selectRenderer item = Spec.first_match item).
  { unfold selectRenderer, Spec.first_match, Spec.priority.
    cbn [find Spec.guard_of].
    repeat match goal with
           | |- context [if ?b then _ else _] => destruct b; [reflexivity|]
           end.
    reflexivity. }
  split; [exact E|].
  unfold Spec.first_match in E.
  destruct (find _ Spec.priority) as [k|] eqn:F; rewrite E.
  - pose proof (find_some _ _ F) as [Hin Hk].
    split; [unfold Spec.all_kinds; apply in_or_app; now left|].
    split; [exact Hk|]. split.
    + intros before after Hsplit.
      pose proof priority_NoDup as ND. rewrite Hsplit in F, ND.
      apply (find_skips _ before after k); [|exact F].
      now apply NoDup_remove_2 in ND; intros Hin'; apply ND, in_or_app; left.
    + intros ->. exfalso. now apply Unknown_not_in_priority.
  - split; [unfold Spec.all_kinds; apply in_or_app; right; now left|].
    split; [reflexivity|]. split.
    + intros before after Hsplit. exfalso. apply Unknown_not_in_priority.
      rewrite Hsplit. apply in_elt.
    + intros _. now apply find_none_all.
Qed.

End Chain.

(** ** The classifier *)

Section Classifier.

Import UploadTrajectory.

Lemma classifier_empty_array :
  processOpenHandsTrajectory (JArr []) = Ok (JArr []).
Proof. reflexivity. Qed.

(** An array whose first element is an object or an array comes back as it
    is, whether or not that element carries the OpenHands fields. *)
Lemma classifier_array_unchanged (first : json) (rest : list json) :
  typeof (Some first) = TObject -> first <> JNull ->
  processOpenHandsTrajectory (JArr (first :: rest)) = Ok (JArr (first :: rest)).
Proof.
  intros Hobj Hnull. unfold processOpenHandsTrajectory.
  destruct first as [| | | | elems|props]; try discriminate; [congruence| |].
  - reflexivity.
  - rewrite !has_object.
    destruct (lookup "action" props), (lookup "source" props),
      (lookup "observation" props); reflexivity.
Qed.

Lemma classifier_entries (props : list (string * json)) (es : list json) :
  lookup "entries" props = Some (JArr es) ->
  processOpenHandsTrajectory (JObj props) = Ok (JObj props).
Proof. intros H. cbn. rewrite H. reflexivity. Qed.

Lemma classifier_history (props : list (string * json)) (h : list json) :
  isArray_opt (lookup "entries" props) = false ->
  lookup "history" props = Some (JArr h) ->
  processOpenHandsTrajectory (JObj props) = Ok (JArr h).
Proof.
  intros He Hh. cbn. rewrite He, andb_false_r, Hh. reflexivity.
Qed.

(** Any other value than [null] that is not an array and has neither an
    [entries] array nor a [history] array comes back as it is. *)
Lemma classifier_opaque (content : json) :
  content <> JNull -> isArray content = false ->
  isArray_opt (prop content "entries") = false ->
  isArray_opt (prop content "history") = false ->
  processOpenHandsTrajectory content = Ok content.
Proof.
  intros Hnull Harr He Hh.
  destruct content as [|b|n|s|elems|props]; try discriminate;
    [congruence| | | |]; cbn in *;
    try reflexivity.
  rewrite He, andb_false_r.
  destruct (lookup "history" props) as [h|]; [|reflexivity].
  cbn in Hh. rewrite Hh, andb_false_r. reflexivity.
Qed.

Lemma classified_is_logged (content processed : json) :
  processOpenHandsTrajectory content = Ok processed ->
  log_parsed content = Ok tt.
Proof. destruct content; try reflexivity. discriminate. Qed.

(** C4.  The file [[1]] is valid JSON and an array whose first element has
    none of the OpenHands fields, yet the classifier does not return it:
    asking [in] of a number throws, the handler takes the exception for a
    parse failure and nothing is delivered. *)
Theorem classifier_throws_on_primitive_first_element :
  (exists e, processOpenHandsTrajectory (JArr [JNum 1]) = Throw e)
  /\ (forall P file,
         let st := reader_onload (Ok (JArr [JNum 1])) (onDrop P [file] initial) in
         upload_called (effects st) = false
         /\ timers st = []
         /\ error st
            = Some (parse_failure_text
                      (TypeError "Cannot use 'in' operator to search for 'action' in a value that is not an object"))).
Proof.
  split; [eexists; reflexivity|].
  intros [[|]] file; cbn; repeat split; reflexivity.
Qed.

(** C7.  The file [null] is valid JSON, is not an array and has no
    [entries] or [history], yet the classifier does not return it: reading
    [entries] of [null] throws (and so does the listing of its keys just
    before), the handler takes the exception for a parse failure and
    nothing is delivered. *)
Theorem classifier_throws_on_null :
  (exists e, processOpenHandsTrajectory JNull = Throw e)
  /\ (exists e, log_parsed JNull = Throw e)
  /\ (forall P file,
         let st := reader_onload (Ok JNull) (onDrop P [file] initial) in
         upload_called (effects st) = false
         /\ timers st = []
         /\ error st
            = Some (parse_failure_text
                      (TypeError "Cannot convert undefined or null to object"))).
Proof.
  split; [eexists; reflexivity|]. split; [eexists; reflexivity|].
  intros [[|]] file; cbn; repeat split; reflexivity.
Qed.

End Classifier.

(** ** The upload state machine *)

Section Upload.

Import UploadTrajectory.

(** C10.  A drop without accepted files changes nothing: the state, and
    with it the processing flag, the error and the list of effects (no
    call of [onUploadStart] or [onUpload], no read started), is the one
    before. *)
Theorem onDrop_no_files (P : Props) (st : State) :
  onDrop P [] st = st
  /\ isProcessing (onDrop P [] st) = isProcessing st
  /\ error (onDrop P [] st) = error st
  /\ effects (onDrop P [] st) = effects st
  /\ timers (onDrop P [] st) = timers st.
Proof. repeat split. Qed.

Lemma onDrop_file (P : Props) (file : File) (files : list File) (st : State) :
  let st1 := onDrop P (file :: files) st in
  isProcessing st1 = true /\ error st1 = None /\ timers st1 = timers st
  /\ effects st1
     = (effects st ++ (if onUploadStart_given P then [HostUploadStart] else [])
        ++ [ReadAsText file])%list.
Proof.
  destruct P as [[|]]; cbn; repeat split; try reflexivity.
  - now rewrite <- app_assoc.
Qed.

Lemma upload_called_app (es es' : list Effect) :
  upload_called (es ++ es') = upload_called es || upload_called es'.
Proof. apply existsb_app. Qed.

(** C1 as it stands fails: after the file [trajectory.json] with the text
    [not json] the message does not contain the name of the file. *)
Lemma parse_failure_does_not_name_file :
  ~ Spec.names_file_and_cause "trajectory.json"
      "Unexpected token o in JSON at position 1"
      (reader_onload
         (Throw (ErrorObj "SyntaxError" "Unexpected token o in JSON at position 1"))
         (onDrop {| onUploadStart_given := true |}
            [{| file_name := "trajectory.json"; file_size := 8 |}] initial)).
Proof.
  intros [[e [He [Hname _]]] _]. cbn in He. injection He as <-.
  vm_compute in Hname. discriminate.
Qed.

(** C1, amended.  When [JSON.parse] throws an error, the message shown
    inline is the fixed sentence around the parser's message, the alert is
    a fixed sentence, the processing flag is cleared, and nothing is
    delivered to the host or scheduled. *)
Theorem parse_failure_reported (P : Props) (file : File) (files : list File)
    (st : State) (name cause : string) :
  let st1 := onDrop P (file :: files) st in
  let st2 := reader_onload (Throw (ErrorObj name cause)) st1 in
  error st2
  = Some ("Failed to parse the trajectory file: " ++ cause
          ++ ". Please make sure it is a valid JSON file.")
  /\ (exists e, error st2 = Some e /\ Spec.contains cause e = true)
  /\ effects st2
     = (effects st1
        ++ [WindowAlert
              "Failed to parse the trajectory file. Please make sure it is a valid JSON file."])%list
  /\ upload_called (effects st2) = upload_called (effects st)
  /\ timers st2 = timers st
  /\ isProcessing st2 = false.
Proof.
  cbn zeta. split; [reflexivity|]. split.
  - eexists. split; [reflexivity|]. apply contains_infix.
  - split; [reflexivity|]. split; [|split; [|reflexivity]].
    + cbn [reader_onload bind onload_catch setIsProcessing emit setError effects].
      rewrite upload_called_app.
      destruct (onDrop_file P file files st) as (_ & _ & _ & E).
      cbn zeta in E. rewrite E, !upload_called_app.
      destruct (onUploadStart_given P); cbn; now rewrite !orb_false_r.
    + destruct P as [[|]]; reflexivity.
Qed.

(** C3.  When the classifier yields a sequence, at most 500 elements are
    handed to [onUpload] within [reader.onload], which also clears the
    processing flag; more than 500 are handed over by a timer: after
    [reader.onload] nothing has been delivered and the flag is still set,
    and the delivery and the clearing happen when the timer fires.  Either
    way the host receives
    [{content: {trajectoryData: sequence, fileType: "trajectory"}}]. *)
Theorem size_policy (P : Props) (file : File) (files : list File) (st : State)
    (content : json) (items : list json) :
  processOpenHandsTrajectory content = Ok (JArr items) ->
  timers st = [] ->
  let st1 := onDrop P (file :: files) st in
  let st2 := reader_onload (Ok content) st1 in
  let delivery :=
    HostUpload
      (JObj [("content",
              JObj [("trajectoryData", JArr items);
                    ("fileType", JStr "trajectory")])]) in
  isProcessing st1 = true
  /\ if (List.length items <=? 500)%nat
     then effects st2 = (effects st1 ++ [delivery])%list
          /\ isProcessing st2 = false
          /\ timers st2 = []
     else effects st2 = effects st1
          /\ isProcessing st2 = true
          /\ timers st2 = [{| delay_ms := 100; processedTrajectory := JArr items |}]
          /\ effects (fire_timer st2) = (effects st1 ++ [delivery])%list
          /\ isProcessing (fire_timer st2) = false
          /\ timers (fire_timer st2) = [].
Proof.
  intros Hc Ht. cbn zeta.
  destruct (onDrop_file P file files st) as (Hp & _ & Ht1 & _). cbn zeta in *.
  rewrite Ht in Ht1. split; [exact Hp|].
  remember (onDrop P (file :: files) st) as st1 eqn:Est1. clear Est1.
  unfold reader_onload. cbn [bind]. unfold onload_try.
  rewrite (classified_is_logged _ _ Hc), Hc. cbn [bind truthy typeof has andb].
  unfold large_threshold.
  destruct (Nat.leb_spec (List.length items) 500) as [Hle|Hgt].
  - apply Nat.ltb_ge in Hle. rewrite Hle. cbn. now rewrite Ht1.
  - apply Nat.ltb_lt in Hgt. rewrite Hgt.
    unfold fire_timer. cbn. rewrite Ht1, Hp. cbn. repeat split.
Qed.

(** The size policy at the two sides of the threshold: 500 and 501 items. *)
Lemma size_policy_witness :
  let P := {| onUploadStart_given := true |} in
  let file := {| file_name := "trajectory.json"; file_size := 0 |} in
  let st1 := onDrop P [file] initial in
  (let items := repeat Samples.openhands_item 500 in
   effects (reader_onload (Ok (JArr items)) st1)
   = (effects st1
      ++ [HostUpload
            (JObj [("content",
                    JObj [("trajectoryData", JArr items);
                          ("fileType", JStr "trajectory")])])])%list)
  /\ (let items := repeat Samples.openhands_item 501 in
      effects (reader_onload (Ok (JArr items)) st1) = effects st1
      /\ isProcessing (reader_onload (Ok (JArr items)) st1) = true
      /\ effects (fire_timer (reader_onload (Ok (JArr items)) st1))
         = (effects st1
            ++ [HostUpload
                  (JObj [("content",
                          JObj [("trajectoryData", JArr items);
                                ("fileType", JStr "trajectory")])])])%list).
Proof.
  intros P file st1. split.
  - intros items.
    exact (proj1 (proj2 (size_policy P file [] initial (JArr items) items
                           eq_refl eq_refl))).
  - intros items.
    pose proof (proj2 (size_policy P file [] initial (JArr items) items
                         eq_refl eq_refl)) as H.
    split; [exact (proj1 H)|].
    split; [exact (proj1 (proj2 H)) | exact (proj1 (proj2 (proj2 (proj2 H))))].
Defined.

End Upload.

(** ** The run details view *)

Section Run.

Import RunDetails.

(** C8 as it stands fails: for the envelope [{content: {}}] none of the
    four fields is present, and the view shows the "Artifact Data" section
    and no empty-state message. *)
Lemma empty_content_object_has_no_message :
  render (G := Spec.guards) (Samples.loaded (JObj [("content", JObj [])]))
  = Ok (DetailsView {| artifact_data := true; history_dump := None;
                       jsonlHistory_dump := None; no_content_message := false |})
  /\ render (G := Spec.guards) (Samples.loaded (JObj [("content", JObj [])]))
     <> Ok (DetailsView (Spec.details_as_specified (Some (JObj [])))).
Proof. split; [reflexivity | discriminate]. Qed.

Lemma dump_of_present (content : option json) (k : string) :
  Spec.present content k = truthy_opt (opt_get content k) ->
  dump_of (opt_get content k)
  = if Spec.present content k
    then Some (opt_get (opt_get content k) "length") else None.
Proof. intros ->. reflexivity. Qed.

(** C8, amended.  When the view is past the loading and error panels and
    the envelope takes neither the JSONL nor the trajectory branch, the
    generic view is rendered: the "Artifact Data" section exactly when the
    content is truthy and [metrics] is truthy or [issue] is not; the dump
    of [history] and of [jsonlHistory], each headed by its [length],
    exactly when the field is truthy; the empty-state message exactly when
    there is no truthy content.  For a truthy content whose four fields
    are truthy whenever present, this is the view of the specification
    except for the empty-state message, which is not shown. *)
Theorem details_view_sections {G : TrajectoryList.Guards} (st : State)
    (rd : RunDetailsResponse) :
  loading st = false -> contentLoading st = false ->
  processingArtifact st = false ->
  error_text (error st) = None -> runDetails st = Some rd ->
  let content := opt_get (Some (artifactContent st)) "content" in
  is_jsonl content = false -> is_trajectory content = false ->
  exists d,
    render st = Ok (DetailsView d)
    /\ artifact_data d
       = truthy_opt content
         && (truthy_opt (opt_get content "metrics")
             || negb (truthy_opt (opt_get content "issue")))
    /\ history_dump d
       = (if truthy_opt (opt_get content "history")
          then Some (opt_get (opt_get content "history") "length") else None)
    /\ jsonlHistory_dump d
       = (if truthy_opt (opt_get content "jsonlHistory")
          then Some (opt_get (opt_get content "jsonlHistory") "length") else None)
    /\ no_content_message d = negb (truthy_opt content)
    /\ (truthy_opt content = true ->
        (forall k, Spec.present content k = truthy_opt (opt_get content k)) ->
        artifact_data d = artifact_data (Spec.details_as_specified content)
        /\ history_dump d = history_dump (Spec.details_as_specified content)
        /\ jsonlHistory_dump d
           = jsonlHistory_dump (Spec.details_as_specified content)
        /\ no_content_message d = false).
Proof.
  intros Hl Hc Hp He Hr content Hj Ht.
  exists (details_of content). split.
  - unfold render. rewrite Hl, Hc, Hp, He, Hr. cbn [orb].
    fold content. now rewrite Hj, Ht.
  - cbn [details_of artifact_data history_dump jsonlHistory_dump no_content_message].
    split.
    { destruct (truthy_opt content); reflexivity. }
    split; [reflexivity|]. split; [reflexivity|]. split; [reflexivity|].
    intros Hcontent Hpresent. rewrite Hcontent.
    cbn [Spec.details_as_specified artifact_data history_dump jsonlHistory_dump].
    rewrite !dump_of_present by apply Hpresent.
    rewrite !Hpresent. repeat split.
Qed.

(** The generic view of the envelope [{content: {}}]. *)
Lemma details_view_sections_witness :
  exists d,
    render (G := Spec.guards) (Samples.loaded (JObj [("content", JObj [])]))
    = Ok (DetailsView d)
    /\ artifact_data d = true
    /\ no_content_message d = false.
Proof.
  destruct (details_view_sections (G := Spec.guards)
              (Samples.loaded (JObj [("content", JObj [])])) Samples.the_details
              eq_refl eq_refl eq_refl eq_refl eq_refl eq_refl eq_refl)
    as (d & Hd & Ha & _ & _ & Hm & _).
  exists d. repeat split; assumption.
Defined.

Context {A : Api}.

Lemma handleArtifactSelect_events (P : Props) (a : Artifact) (st : State) :
  exists rest,
    snd (handleArtifactSelect P (Some a) st)
    = GetArtifactContent (owner P) (repo P) (artifact_id a) :: rest
    /\ (rest = [] \/ rest = [Wait 500]).
Proof.
  unfold handleArtifactSelect.
  destruct (getArtifactContent _ _ _) as [c|e]; [destruct (is_large c) as [[|]|]|];
    cbn; eexists; split; try reflexivity; auto.
Qed.

(** C9.  When no initial content is given, [getRunDetails] resolves with
    exactly one artifact and the run's conclusion is ["success"], one run
    of the effect calls [getArtifactContent] for that artifact right after
    [getRunDetails], with no event from the user in between. *)
Theorem single_artifact_auto_select (P : Props) (st : State) (r : WorkflowRun)
    (details : RunDetailsResponse) (a : Artifact) :
  prop_run P = Some r -> owner P <> "" -> repo P <> "" ->
  truthy_opt (initialContent P) = false ->
  getRunDetails (owner P) (repo P) (run_id r) = Ok details ->
  artifacts details = Some [a] ->
  conclusion r = Some "success" ->
  exists rest,
    snd (fetchRunDetails P st)
    = GetRunDetails (owner P) (repo P) (run_id r)
      :: GetArtifactContent (owner P) (repo P) (artifact_id a) :: rest
    /\ (rest = [] \/ rest = [Wait 500]).
Proof.
  intros Hrun Ho Hr Hic Hd Ha Hc.
  unfold fetchRunDetails. rewrite Hrun.
  apply String.eqb_neq in Ho, Hr. rewrite Ho, Hr, Hic. cbn [orb].
  unfold fetch_details. rewrite Hd, Ha, Hc, String.eqb_refl.
  set (st' := setArtifactContent _ _).
  destruct (handleArtifactSelect_events P a st') as (rest & E & Hrest).
  destruct (handleArtifactSelect P (Some a) st') as [st'' evs]. cbn in E. subst evs.
  exists rest. split; [|exact Hrest].
  destruct (processingArtifact st); reflexivity.
Qed.

End Run.

(** A successful run with one artifact, with a client that answers. *)
Lemma single_artifact_auto_select_witness :
  exists rest,
    snd (RunDetails.fetchRunDetails (A := Samples.api) Samples.props
           RunDetails.initial)
    = RunDetails.GetRunDetails "OpenHands" "trajectory-visualizer" 7
      :: RunDetails.GetArtifactContent "OpenHands" "trajectory-visualizer" 42
      :: rest
    /\ (rest = [] \/ rest = [RunDetails.Wait 500]).
Proof.
  apply (single_artifact_auto_select (A := Samples.api) Samples.props
           RunDetails.initial Samples.a_run Samples.the_details
           Samples.an_artifact);
    solve [reflexivity | discriminate].
Defined.

(** ** More on the classifier *)

Section ClassifierShape.

Import UploadTrajectory.

Lemma classifier_array (elems : list json) :
  Shape.unclassifiable (JArr elems) = false ->
  processOpenHandsTrajectory (JArr elems) = Ok (JArr elems).
Proof.
  destruct elems as [|first rest]; [reflexivity|].
  cbn [Shape.unclassifiable]. intros H. apply negb_false_iff in H.
  apply classifier_array_unchanged; destruct first; try discriminate; reflexivity.
Qed.

Lemma classifier_array_throws (elems : list json) :
  Shape.unclassifiable (JArr elems) = true ->
  exists e, processOpenHandsTrajectory (JArr elems) = Throw e.
Proof.
  destruct elems as [|first rest]; [discriminate|].
  destruct first; try discriminate; intros _; eexists; reflexivity.
Qed.

Lemma classifier_not_array (content : json) :
  content <> JNull -> isArray content = false ->
  processOpenHandsTrajectory content
  = Ok (if isArray_opt (prop content "entries") then content
        else match prop content "history" with
             | Some (JArr h) => JArr h
             | _ => content
             end).
Proof.
  intros Hnull Harr.
  destruct content as [|b|n|s|elems|props]; try discriminate;
    [congruence| | | |]; try reflexivity.
  cbn [processOpenHandsTrajectory get prop bind].
  destruct (lookup "entries" props) as [entries|]; [destruct entries|];
    cbn; rewrite ?andb_false_r; try reflexivity;
    (destruct (lookup "history" props) as [history|]; [destruct history|]);
    cbn; rewrite ?andb_false_r; reflexivity.
Qed.

(** X1.  The classifier throws exactly on [null] and on a non-empty array
    whose first element is not an object or an array; on every other
    value it returns. *)
Theorem classifier_throws_iff (content : json) :
  ((exists e, processOpenHandsTrajectory content = Throw e)
   <-> Shape.unclassifiable content = true)
  /\ ((exists processed, processOpenHandsTrajectory content = Ok processed)
      <-> Shape.unclassifiable content = false).
Proof.
  destruct (Shape.unclassifiable content) eqn:U.
  - assert (T : exists e, processOpenHandsTrajectory content = Throw e).
    { destruct content; try discriminate.
      - eexists; reflexivity.
      - now apply classifier_array_throws. }
    split; split; auto; try discriminate.
    intros [p Hp]. destruct T as [e He]. congruence.
  - assert (T : exists p, processOpenHandsTrajectory content = Ok p).
    { destruct content as [|b|n|s|elems|props]; try discriminate;
        try (eexists; apply classifier_not_array; [discriminate|reflexivity]).
      eexists. now apply classifier_array. }
    split; split; auto; try discriminate.
    intros [e He]. destruct T as [p Hp]. congruence.
Qed.

(** X2.  What the classifier returns is its argument, except for a value
    that is not an array, has no [entries] array and has a [history]
    array: then it is that array. *)
Theorem classifier_result_shape (content processed : json) :
  processOpenHandsTrajectory content = Ok processed ->
  (processed = content
   /\ (isArray content = true
       \/ isArray_opt (prop content "entries") = true
       \/ isArray_opt (prop content "history") = false))
  \/ (isArray content = false
      /\ isArray_opt (prop content "entries") = false
      /\ prop content "history" = Some processed
      /\ isArray processed = true).
Proof.
  intros H.
  destruct (isArray content) eqn:Harr.
  - left. destruct content; try discriminate.
    destruct (Shape.unclassifiable (JArr elems)) eqn:U.
    + destruct (classifier_array_throws _ U) as [e He]. congruence.
    + rewrite (classifier_array _ U) in H. injection H as <-. auto.
  - assert (Hnull : content <> JNull) by (intros ->; discriminate).
    rewrite (classifier_not_array _ Hnull Harr) in H. injection H as <-.
    destruct (isArray_opt (prop content "entries")); [left; auto|].
    destruct (prop content "history") as [[| | | |h|]|]; cbn; auto 8.
Qed.

(** The file [{history: [item]}] is unwrapped. *)
Lemma classifier_result_shape_witness :
  prop Cases.history_file "history" = Some (JArr [Samples.openhands_item]).
Proof.
  destruct (classifier_result_shape Cases.history_file
              (JArr [Samples.openhands_item]) eq_refl)
    as [[H _]|(_ & _ & H & _)]; [discriminate H | exact H].
Defined.

(** X3.  Classifying a classified value changes nothing, provided the
    second run returns at all (an unwrapped [history] is not inspected by
    the first run, and may start with a number). *)
Theorem classifier_idempotent (content processed : json) :
  processOpenHandsTrajectory content = Ok processed ->
  Shape.unclassifiable processed = false ->
  processOpenHandsTrajectory processed = Ok processed.
Proof.
  intros H U.
  destruct (isArray processed) eqn:Harr.
  - destruct processed; try discriminate. now apply classifier_array.
  - destruct (isArray content) eqn:Hc.
    + destruct content; try discriminate.
      destruct (Shape.unclassifiable (JArr elems)) eqn:Uc.
      * destruct (classifier_array_throws _ Uc) as [e He]. congruence.
      * rewrite (classifier_array _ Uc) in H. injection H as <-. discriminate.
    + assert (Hnull : content <> JNull) by (intros ->; discriminate).
      pose proof H as H'.
      rewrite (classifier_not_array _ Hnull Hc) in H'. injection H' as E.
      destruct (isArray_opt (prop content "entries")); [now subst|].
      destruct (prop content "history") as [[| | | |h|]|]; subst; try exact H.
      discriminate.
Qed.

Lemma classifier_idempotent_witness :
  processOpenHandsTrajectory (JArr [Samples.openhands_item])
  = Ok (JArr [Samples.openhands_item]).
Proof.
  exact (classifier_idempotent Cases.history_file
           (JArr [Samples.openhands_item]) eq_refl eq_refl).
Defined.

End ClassifierShape.

(** ** More on the upload state machine *)

Section UploadCycle.

Import UploadTrajectory.

Lemma reader_onload_classified (content processed : json) (st : State) :
  processOpenHandsTrajectory content = Ok processed ->
  reader_onload (Ok content) st = Shape.after_classification processed st.
Proof.
  intros H. unfold reader_onload, onload_try. cbn [bind].
  rewrite (classified_is_logged _ _ H), H. cbn [bind].
  unfold Shape.after_classification, Shape.payload_of, large_threshold.
  destruct processed as [|b|n|s|items|props];
    cbn [truthy typeof has andb bind negb];
    rewrite ?andb_false_r; cbn [bind]; try reflexivity.
  - now destruct (500 <? List.length items)%nat.
  - now destruct (lookup "jsonlContent" props).
Qed.

Lemma reader_onload_unclassified (content : json) (e : exn) (st : State) :
  processOpenHandsTrajectory content = Throw e ->
  exists e', reader_onload (Ok content) st = onload_catch e' st.
Proof.
  intros H. unfold reader_onload, onload_try. cbn [bind].
  destruct (log_parsed content) as [[]|e'] eqn:L; cbn [bind].
  - rewrite H. cbn [bind]. now exists e.
  - now exists e'.
Qed.

Lemma reader_onload_cases (parsed : result json) (st : State) :
  (exists content processed,
      parsed = Ok content
      /\ processOpenHandsTrajectory content = Ok processed
      /\ reader_onload parsed st = Shape.after_classification processed st)
  \/ (exists e, reader_onload parsed st = onload_catch e st).
Proof.
  destruct parsed as [content|e]; [|right; now exists e].
  destruct (processOpenHandsTrajectory content) as [processed|e] eqn:H.
  - left. exists content, processed. repeat split; auto.
    now apply reader_onload_classified.
  - right. now apply (reader_onload_unclassified content e).
Qed.

Lemma after_classification_fired (processed : json) (st : State) :
  timers st = [] ->
  let st' := fire_timer (Shape.after_classification processed st) in
  effects st' = (effects st ++ [HostUpload (Shape.payload_of processed)])%list
  /\ timers st' = []
  /\ isProcessing st' = false
  /\ error st' = error st.
Proof.
  intros Ht. cbn zeta.
  assert (D : let st1 := setIsProcessing false
                           (emit (HostUpload (Shape.payload_of processed)) st) in
              effects (fire_timer st1)
              = (effects st ++ [HostUpload (Shape.payload_of processed)])%list
              /\ timers (fire_timer st1) = []
              /\ isProcessing (fire_timer st1) = false
              /\ error (fire_timer st1) = error st).
  { unfold fire_timer. cbn. rewrite Ht. cbn. auto. }
  unfold Shape.after_classification. cbn zeta in *.
  destruct processed as [|b|n|s|items|props]; try exact D.
  destruct (500 <? List.length items)%nat; [|exact D].
  unfold fire_timer. cbn. rewrite Ht. cbn. auto.
Qed.

(** X4.  Whatever [JSON.parse] did, [reader.onload] does one of three
    things and nothing else: it hands one value to [onUpload] and clears
    the processing flag; or it registers one timer of 100 ms for a
    sequence of more than 500 elements and leaves the flag; or it sets the
    parse failure message, raises the alert and clears the flag. *)
Theorem reader_onload_outcomes (parsed : result json) (st : State) :
  let st' := reader_onload parsed st in
  (exists content,
      effects st' = (effects st ++ [HostUpload content])%list
      /\ timers st' = timers st /\ error st' = error st
      /\ isProcessing st' = false)
  \/ (exists items,
         (500 < List.length items)%nat
         /\ effects st' = effects st
         /\ timers st'
            = (timers st
               ++ [{| delay_ms := 100; processedTrajectory := JArr items |}])%list
         /\ error st' = error st
         /\ isProcessing st' = isProcessing st)
  \/ (exists e,
         effects st' = (effects st ++ [WindowAlert parse_failure_alert])%list
         /\ timers st' = timers st
         /\ error st' = Some (parse_failure_text e)
         /\ isProcessing st' = false).
Proof.
  cbn zeta.
  destruct (reader_onload_cases parsed st) as [(c & p & _ & _ & ->)|[e ->]].
  - unfold Shape.after_classification. cbn zeta.
    destruct p as [|b|n|s|items|props];
      try (left; eexists; repeat split; reflexivity).
    destruct (Nat.ltb_spec 500 (List.length items)) as [Hgt|Hle].
    + right; left. exists items. repeat split; auto.
    + left; eexists; repeat split; reflexivity.
  - right; right. exists e. repeat split.
Qed.

(** X5.  A drop is always brought to an end, however the read ends: once
    the reader has fired and the timer, if one was registered, has run,
    the processing flag is clear and no timer is left.  After a read
    error the message is "Error reading file: ..." and the effects are
    those of the drop alone.  After a load, either the file was parsed
    and classified, no error is shown and [onUpload] was called exactly
    once, after the start notification, with the payload of the
    classified value; or the parse failure is shown, the alert was
    raised and [onUpload] was not called. *)
Theorem drop_cycle_completes (P : Props) (file : File) (files : list File)
    (st : State) (outcome : Shape.ReadEnd) :
  timers st = [] ->
  let st' :=
    fire_timer (Shape.finish_read outcome (onDrop P (file :: files) st)) in
  isProcessing st' = false
  /\ timers st' = []
  /\ match outcome with
     | Shape.ReadFailed message =>
         error st'
         = Some ("Error reading file: "
                 ++ match message with
                    | Some m => if m =? "" then "Unknown error" else m
                    | None => "Unknown error"
                    end)
         /\ effects st' = (effects st ++ Shape.drop_effects P file)%list
     | Shape.Loaded parsed =>
         (exists content processed,
             parsed = Ok content
             /\ processOpenHandsTrajectory content = Ok processed
             /\ error st' = None
             /\ effects st'
                = (effects st ++ Shape.drop_effects P file
                   ++ [HostUpload (Shape.payload_of processed)])%list)
         \/ (exists e,
                error st'
                = Some ("Failed to parse the trajectory file: "
                        ++ message_or_unknown e
                        ++ ". Please make sure it is a valid JSON file.")
                /\ effects st'
                   = (effects st ++ Shape.drop_effects P file
                      ++ [WindowAlert
                            "Failed to parse the trajectory file. Please make sure it is a valid JSON file."])%list)
     end.
Proof.
  intros Ht. cbn zeta.
  destruct (onDrop_file P file files st) as (Hp & He & Ht1 & Hf).
  cbn zeta in Hp, He, Ht1, Hf. rewrite Ht in Ht1.
  fold (Shape.drop_effects P file) in Hf.
  remember (onDrop P (file :: files) st) as st1 eqn:E. clear E.
  destruct outcome as [parsed|message]; cbn [Shape.finish_read].
  - destruct (reader_onload_cases parsed st1) as [(c & p & Hc & Hcl & ->)|[e ->]].
    + destruct (after_classification_fired p st1 Ht1) as (Hfx & Htm & Hpr & Her).
      repeat split; auto. left. exists c, p. repeat split; auto.
      * now rewrite Her.
      * now rewrite Hfx, Hf, <- app_assoc.
    + unfold fire_timer, onload_catch. cbn. rewrite Ht1. cbn.
      rewrite Ht1, Hf, <- app_assoc. repeat split.
      right. exists e. split; reflexivity.
  - unfold fire_timer, reader_onerror. cbn. rewrite Ht1. cbn.
    rewrite Ht1, Hf. repeat split.
Qed.

(** A drop of a file that does not parse, and one whose read fails, from
    the initial state. *)
Lemma drop_cycle_completes_witness :
  error
    (fire_timer
       (reader_onload (Throw (ErrorObj "SyntaxError" "Unexpected end of JSON input"))
          (onDrop Cases.with_start [Cases.a_file] initial)))
  = Some "Failed to parse the trajectory file: Unexpected end of JSON input. Please make sure it is a valid JSON file."
  /\ error
       (fire_timer
          (reader_onerror (Some "The file could not be read")
             (onDrop Cases.with_start [Cases.a_file] initial)))
     = Some "Error reading file: The file could not be read".
Proof.
  split.
  - destruct (proj2 (proj2 (drop_cycle_completes Cases.with_start Cases.a_file []
                              initial
                              (Shape.Loaded
                                 (Throw (ErrorObj "SyntaxError"
                                           "Unexpected end of JSON input")))
                              eq_refl)))
      as [(c & p & Hc & _)|(e & He & _)]; [discriminate Hc | reflexivity].
  - exact (proj1 (proj2 (proj2 (drop_cycle_completes Cases.with_start
                                  Cases.a_file [] initial
                                  (Shape.ReadFailed
                                     (Some "The file could not be read"))
                                  eq_refl)))).
Defined.

(** X6.  Whatever the classifier returns reaches the host exactly once,
    at once or through the timer: as [{content: value}] for an object
    with a [jsonlContent] property, as
    [{content: {trajectoryData: value, fileType: "trajectory"}}] for every
    other value, sequence or not. *)
Theorem upload_delivers_payload (content processed : json) (st : State) :
  processOpenHandsTrajectory content = Ok processed ->
  timers st = [] ->
  let st' := fire_timer (reader_onload (Ok content) st) in
  effects st'
  = (effects st
     ++ [HostUpload
           (match processed with
            | JObj props =>
                match lookup "jsonlContent" props with
                | Some _ => JObj [("content", processed)]
                | None =>
                    JObj [("content",
                           JObj [("trajectoryData", processed);
                                 ("fileType", JStr "trajectory")])]
                end
            | _ =>
                JObj [("content",
                       JObj [("trajectoryData", processed);
                             ("fileType", JStr "trajectory")])]
            end)])%list
  /\ timers st' = []
  /\ isProcessing st' = false
  /\ error st' = error st.
Proof.
  intros H Ht. cbn zeta. rewrite (reader_onload_classified _ _ _ H).
  exact (after_classification_fired processed st Ht).
Qed.

(** An object in the [entries] format is handed over whole, as
    [trajectoryData]; an object with [jsonlContent], as the content. *)
Lemma upload_delivers_payload_witness :
  effects (fire_timer (reader_onload (Ok (JObj [("entries", JArr [])])) initial))
  = [HostUpload
       (JObj [("content",
               JObj [("trajectoryData", JObj [("entries", JArr [])]);
                     ("fileType", JStr "trajectory")])])]
  /\ effects
       (fire_timer
          (reader_onload (Ok (JObj [("jsonlContent", JStr "{}")])) initial))
     = [HostUpload (JObj [("content", JObj [("jsonlContent", JStr "{}")])])].
Proof.
  split.
  - exact (proj1 (upload_delivers_payload (JObj [("entries", JArr [])])
                    (JObj [("entries", JArr [])]) initial eq_refl eq_refl)).
  - exact (proj1 (upload_delivers_payload (JObj [("jsonlContent", JStr "{}")])
                    (JObj [("jsonlContent", JStr "{}")]) initial
                    eq_refl eq_refl)).
Defined.

(** X7.  When the read fails, the message is "Error reading file: "
    followed by the reader's message when it has a non-empty one, and by
    "Unknown error" when it has none or an empty one; the processing flag
    is cleared, and the host, which was told of the start, gets no call of
    [onUpload] and the user no alert. *)
Theorem read_error_reported (P : Props) (file : File) (files : list File)
    (st : State) (message : option string) :
  let st' := reader_onerror message (onDrop P (file :: files) st) in
  isProcessing st' = false
  /\ effects st' = (effects st ++ Shape.drop_effects P file)%list
  /\ timers st' = timers st
  /\ (forall m, message = Some m -> m <> "" ->
      error st' = Some ("Error reading file: " ++ m))
  /\ (message = None \/ message = Some "" ->
      error st' = Some "Error reading file: Unknown error").
Proof.
  cbn zeta.
  destruct (onDrop_file P file files st) as (_ & _ & Ht1 & Hf).
  cbn zeta in Ht1, Hf. fold (Shape.drop_effects P file) in Hf.
  remember (onDrop P (file :: files) st) as st1 eqn:E. clear E.
  unfold reader_onerror.
  cbn [isProcessing effects timers error setIsProcessing setError].
  repeat split; auto.
  - intros m -> Hm. apply String.eqb_neq in Hm. now rewrite Hm.
  - intros [->| ->]; reflexivity.
Qed.

End UploadCycle.

(** ** More on the trajectory list *)

Section ListView.

Import TrajectoryList.
Context {G : Guards}.

Lemma shouldDisplayItem_object_like (item : json) :
  Shape.object_like item = true -> shouldDisplayItem item = Ok (Shape.kept item).
Proof.
  destruct item; try discriminate; intros _.
  - reflexivity.
  - apply shouldDisplayItem_object.
Qed.

Lemma shouldDisplayItem_primitive (item : json) :
  Shape.object_like item = false -> exists e, shouldDisplayItem item = Throw e.
Proof. destruct item; try discriminate; intros _; eexists; reflexivity. Qed.

Lemma filterM_object_like (items : list json) :
  forallb Shape.object_like items = true ->
  filterM shouldDisplayItem items = Ok (filter Shape.kept items).
Proof.
  induction items as [|item items IH]; [reflexivity|].
  cbn [forallb]. intros H. apply andb_true_iff in H as [Hi Hr].
  cbn [filterM filter]. rewrite (shouldDisplayItem_object_like _ Hi), (IH Hr).
  cbn [bind]. now destruct (Shape.kept item).
Qed.

Lemma filterM_throws (items : list json) :
  forallb Shape.object_like items = false ->
  exists e, filterM shouldDisplayItem items = Throw e.
Proof.
  induction items as [|item items IH]; [discriminate|].
  cbn [forallb filterM]. intros H.
  destruct (Shape.object_like item) eqn:Hi.
  - rewrite (shouldDisplayItem_object_like _ Hi). cbn [bind].
    destruct (IH H) as [e ->]. now exists e.
  - destruct (shouldDisplayItem_primitive _ Hi) as [e ->]. now exists e.
Qed.

Lemma TrajectoryList_object_like (items : list json) :
  forallb Shape.object_like items = true ->
  TrajectoryList (Some (JArr items))
  = Ok {| header_count := List.length (filter Shape.kept items);
          cards := cards_from 0 (filter Shape.kept items);
          empty_notice := (List.length (filter Shape.kept items) =? 0)%nat |}.
Proof.
  intros H. unfold TrajectoryList. now rewrite (filterM_object_like _ H).
Qed.

Lemma TrajectoryList_primitive (items : list json) :
  forallb Shape.object_like items = false ->
  exists e, TrajectoryList (Some (JArr items)) = Throw e.
Proof.
  intros H. unfold TrajectoryList.
  destruct (filterM_throws _ H) as [e ->]. now exists e.
Qed.

Lemma cards_from_fields (items : list json) (i : nat) :
  map card_item (cards_from i items) = items
  /\ map card_key (cards_from i items) = seq i (List.length items)
  /\ map card_kind (cards_from i items) = map selectRenderer items.
Proof.
  revert i. induction items as [|x items IH]; intros i; [now cbn|].
  destruct (IH (S i)) as (H1 & H2 & H3).
  cbn [cards_from map seq List.length card_item card_key card_kind].
  now rewrite H1, H2, H3.
Qed.

Lemma filter_kept_object_like (items : list json) :
  forallb Shape.object_like items = true ->
  forallb Shape.object_like (filter Shape.kept items) = true.
Proof.
  induction items as [|x items IH]; [reflexivity|].
  cbn [forallb filter]. intros H. apply andb_true_iff in H as [Hx Hr].
  destruct (Shape.kept x); cbn [forallb]; [rewrite Hx|]; now apply IH.
Qed.

Lemma filter_kept_twice (items : list json) :
  filter Shape.kept (filter Shape.kept items) = filter Shape.kept items.
Proof.
  induction items as [|x items IH]; [reflexivity|].
  cbn [filter]. destruct (Shape.kept x) eqn:K; [|exact IH].
  cbn [filter]. now rewrite K, IH.
Qed.

(** X8.  The list is rendered exactly when every element of the trajectory
    is an object or an array; one number, string, boolean or [null] among
    the elements makes the whole component throw. *)
Theorem TrajectoryList_returns_iff (items : list json) :
  ((exists r, TrajectoryList (Some (JArr items)) = Ok r)
   <-> forallb Shape.object_like items = true)
  /\ ((exists e, TrajectoryList (Some (JArr items)) = Throw e)
      <-> forallb Shape.object_like items = false).
Proof.
  destruct (forallb Shape.object_like items) eqn:H.
  - rewrite (TrajectoryList_object_like _ H).
    split; split; try discriminate; eauto.
    intros [e He]. discriminate.
  - destruct (TrajectoryList_primitive _ H) as [e ->].
    split; split; try discriminate; eauto.
    intros [r Hr]. discriminate.
Qed.

(** X9.  The cards are the kept items in their order, numbered from 0
    without gaps (the position among the displayed items, not in the
    input), each with the renderer of the chain; the header counts them. *)
Theorem TrajectoryList_cards (items : list json) :
  forallb Shape.object_like items = true ->
  exists r,
    TrajectoryList (Some (JArr items)) = Ok r
    /\ map card_item (cards r) = filter Shape.kept items
    /\ map card_key (cards r) = seq 0 (header_count r)
    /\ map card_kind (cards r) = map selectRenderer (filter Shape.kept items)
    /\ header_count r = List.length (cards r).
Proof.
  intros H. rewrite (TrajectoryList_object_like _ H). eexists.
  split; [reflexivity|]. cbn [cards header_count].
  destruct (cards_from_fields (filter Shape.kept items) 0) as (H1 & H2 & H3).
  rewrite cards_from_length. auto.
Qed.

(** X10.  The notice "No trajectory items to display." is shown exactly
    when the pre-filter keeps nothing, and then there is no card. *)
Theorem empty_notice_iff (items : list json) :
  forallb Shape.object_like items = true ->
  exists r,
    TrajectoryList (Some (JArr items)) = Ok r
    /\ (empty_notice r = true
        <-> forallb (fun item => negb (Shape.kept item)) items = true)
    /\ (empty_notice r = true -> cards r = [] /\ header_count r = 0).
Proof.
  intros H. rewrite (TrajectoryList_object_like _ H). eexists.
  split; [reflexivity|]. cbn [empty_notice cards header_count].
  assert (E : filter Shape.kept items = []
              <-> forallb (fun item => negb (Shape.kept item)) items = true).
  { clear H. induction items as [|x items IH]; [now cbn|].
    cbn [filter forallb]. destruct (Shape.kept x); cbn [negb andb].
    - split; discriminate.
    - exact IH. }
  rewrite Nat.eqb_eq, length_zero_iff_nil. split; [exact E|].
  intros ->. now cbn.
Qed.

(** X11.  When the guard for agent state changes accepts only items the
    pre-filter drops, no card is ever rendered as an agent state change:
    the first branch of the chain is never taken. *)
Theorem no_state_change_card (items : list json) (r : Rendered) :
  (forall item, isAgentStateChange item = true -> Shape.kept item = false) ->
  TrajectoryList (Some (JArr items)) = Ok r ->
  forallb (fun c => match card_kind c with
                    | AgentStateChange => false
                    | _ => true
                    end) (cards r) = true.
Proof.
  intros HG H.
  destruct (forallb Shape.object_like items) eqn:O.
  - rewrite (TrajectoryList_object_like _ O) in H. injection H as <-.
    cbn [cards]. generalize 0.
    induction items as [|x items IH]; intros i; [reflexivity|].
    cbn [forallb] in O. apply andb_true_iff in O as [_ O].
    cbn [filter]. destruct (Shape.kept x) eqn:K; [|now apply IH].
    cbn [cards_from forallb card_kind]. rewrite (IH O (S i)), andb_true_r.
    unfold selectRenderer.
    destruct (isAgentStateChange x) eqn:A; [apply HG in A; congruence|].
    repeat match goal with
           | |- context [if ?b then _ else _] => destruct b; [reflexivity|]
           end.
    reflexivity.
  - destruct (TrajectoryList_primitive _ O) as [e He]. congruence.
Qed.

End ListView.

Section ListViewAgain.

Import TrajectoryList.
Context {G : Guards}.

(** X12.  The pre-filter is idempotent: the list of the items that were
    displayed renders as the same header, cards and notice. *)
Theorem TrajectoryList_of_displayed (items : list json) (r : Rendered) :
  TrajectoryList (Some (JArr items)) = Ok r ->
  TrajectoryList (Some (JArr (map card_item (cards r)))) = Ok r.
Proof.
  intros H.
  destruct (forallb Shape.object_like items) eqn:O.
  - rewrite (TrajectoryList_object_like _ O) in H. injection H as <-.
    cbn [cards].
    destruct (cards_from_fields (filter Shape.kept items) 0) as (-> & _ & _).
    rewrite (TrajectoryList_object_like _ (filter_kept_object_like _ O)).
    now rewrite filter_kept_twice.
  - destruct (TrajectoryList_primitive _ O) as [e He]. congruence.
Qed.

End ListViewAgain.

Lemma spec_guard_state_change_dropped (item : json) :
  TrajectoryList.isAgentStateChange (Guards := Spec.guards) item = true ->
  Shape.kept item = false.
Proof.
  destruct item as [|b|n|s|elems|props]; cbn; try discriminate.
  unfold Spec.dropped. intros ->. reflexivity.
Qed.

(** A command followed by a state change: one card, for the command. *)
Lemma TrajectoryList_cards_witness :
  exists r,
    TrajectoryList.TrajectoryList (G := Spec.guards)
      (Some (JArr (map JObj Cases.two_items))) = Ok r
    /\ map TrajectoryList.card_kind (TrajectoryList.cards r)
       = [TrajectoryList.CommandAction].
Proof.
  destruct (TrajectoryList_cards (G := Spec.guards)
              (map JObj Cases.two_items) eq_refl)
    as (r & Hr & _ & _ & Hk & _).
  exists r. split; [exact Hr | exact Hk].
Defined.

(** A trajectory of one state change: the notice and no card. *)
Lemma empty_notice_iff_witness :
  exists r,
    TrajectoryList.TrajectoryList (G := Spec.guards)
      (Some (JArr [JObj [("action", JStr "change_agent_state")]])) = Ok r
    /\ TrajectoryList.empty_notice r = true.
Proof.
  destruct (empty_notice_iff (G := Spec.guards)
              [JObj [("action", JStr "change_agent_state")]] eq_refl)
    as (r & Hr & Hn & _).
  exists r. split; [exact Hr | apply Hn; reflexivity].
Defined.

(** With the guards as the specification gives them. *)
Lemma no_state_change_card_witness :
  exists r,
    TrajectoryList.TrajectoryList (G := Spec.guards)
      (Some (JArr (map JObj Cases.two_items))) = Ok r
    /\ forallb (fun c => match TrajectoryList.card_kind c with
                         | TrajectoryList.AgentStateChange => false
                         | _ => true
                         end) (TrajectoryList.cards r) = true.
Proof.
  eexists. split; [reflexivity|].
  apply (no_state_change_card (G := Spec.guards) (map JObj Cases.two_items));
    [exact spec_guard_state_change_dropped | reflexivity].
Defined.

(** The displayed items of a command followed by a state change. *)
Lemma TrajectoryList_of_displayed_witness :
  exists r,
    TrajectoryList.TrajectoryList (G := Spec.guards)
      (Some (JArr [JObj [("action", JStr "run");
                         ("args", JObj [("command", JStr "ls")])]])) = Ok r
    /\ TrajectoryList.header_count r = 1.
Proof.
  pose proof (TrajectoryList_of_displayed (G := Spec.guards)
                (map JObj Cases.two_items) _ eq_refl) as H.
  eexists. split; [exact H | reflexivity].
Defined.

(** ** More on the run details view *)

Section RunEffect.

Import RunDetails.
Context {A : Api}.

Lemma handleArtifactSelect_state (P : Props) (a : Artifact) (st : State) :
  let st' := fst (handleArtifactSelect P (Some a) st) in
  contentLoading st' = false
  /\ processingArtifact st' = false
  /\ loading st' = loading st
  /\ error st' = error st
  /\ runDetails st' = runDetails st
  /\ artifactContent st'
     = match getArtifactContent (owner P) (repo P) (artifact_id a) with
       | Ok content =>
           match is_large content with
           | Ok _ => content
           | Throw _ => JNull
           end
       | Throw _ => JNull
       end.
Proof.
  unfold handleArtifactSelect.
  destruct (getArtifactContent _ _ _) as [c|e]; [destruct (is_large c) as [[|]|]|];
    cbn; repeat split.
Qed.

(** The state and the events of a run that passes the guard of line 52. *)
Lemma fetchRunDetails_guarded (P : Props) (st : State) (r : WorkflowRun) :
  prop_run P = Some r -> owner P <> "" -> repo P <> "" ->
  fetchRunDetails P st
  = (let st1 := setProcessingArtifact false (setLoading true st) in
     let '(body, evs) :=
       if truthy_opt (initialContent P) then
         (Ok (setArtifactContent
                (match initialContent P with Some ic => ic | None => JNull end)
                (setRunDetails
                   (Some {| run := r; jobs := []; artifacts := Some [] |}) st1)),
          [])
       else fetch_details P r st1 in
     let st2 :=
       match body with
       | Ok st' => setError None st'
       | Throw _ =>
           setError (Some "Failed to load run details. Please try again.") st1
       end in
     (if processingArtifact st then st2 else setLoading false st2, evs)).
Proof.
  intros Hr Ho Hp. unfold fetchRunDetails. rewrite Hr.
  apply String.eqb_neq in Ho, Hp. now rewrite Ho, Hp.
Qed.

Lemma fetch_details_cases (P : Props) (r : WorkflowRun) (st : State) :
  let call := GetRunDetails (owner P) (repo P) (run_id r) in
  (exists e, getRunDetails (owner P) (repo P) (run_id r) = Throw e
             /\ fetch_details P r st = (Throw e, [call]))
  \/ (exists details,
         getRunDetails (owner P) (repo P) (run_id r) = Ok details
         /\ ((exists a,
                 artifacts details = Some [a] /\ conclusion r = Some "success"
                 /\ fetch_details P r st
                    = (Ok (fst (handleArtifactSelect P (Some a)
                                  (setArtifactContent JNull
                                     (setRunDetails (Some details) st)))),
                       call :: snd (handleArtifactSelect P (Some a)
                                      (setArtifactContent JNull
                                         (setRunDetails (Some details) st)))))
             \/ (((forall a, artifacts details <> Some [a])
                  \/ conclusion r <> Some "success")
                 /\ fetch_details P r st
                    = (Ok (setArtifactContent JNull
                             (setRunDetails (Some details) st)),
                       [call])))).
Proof.
  cbn zeta. unfold fetch_details.
  destruct (getRunDetails _ _ _) as [details|e]; [right|left; eauto].
  exists details. split; [reflexivity|].
  destruct (artifacts details) as [[|a [|b l]]|];
    try (right; split; [left; intros a'; discriminate | reflexivity]).
  destruct (conclusion r) as [c|];
    [|right; split; [right; discriminate | reflexivity]].
  destruct (String.eqb_spec c "success") as [->|Hc].
  - left. exists a. repeat split.
    now destruct (handleArtifactSelect P (Some a) _).
  - right. split; [right; congruence | reflexivity].
Qed.

(** X13.  With content handed in by the host, the effect makes no request:
    the content becomes the artifact content, the run details are the
    run with no job and no artifact, and no error is shown. *)
Theorem initial_content_no_request (P : Props) (st : State) (r : WorkflowRun)
    (ic : json) :
  prop_run P = Some r -> owner P <> "" -> repo P <> "" ->
  initialContent P = Some ic -> truthy ic = true ->
  let st' := fst (fetchRunDetails P st) in
  snd (fetchRunDetails P st) = []
  /\ artifactContent st' = ic
  /\ runDetails st' = Some {| run := r; jobs := []; artifacts := Some [] |}
  /\ error st' = None
  /\ processingArtifact st' = false
  /\ loading st' = processingArtifact st.
Proof.
  intros Hr Ho Hp Hic Ht. cbn zeta.
  rewrite (fetchRunDetails_guarded P st r Hr Ho Hp), Hic. cbn [truthy_opt].
  rewrite Ht. cbn zeta.
  destruct (processingArtifact st); cbn; repeat split.
Qed.

(** X14.  When [getRunDetails] is rejected, nothing else is requested, the
    fixed message is set, and the run details and artifact content of the
    state before stay as they were; unless a flag of the state before
    keeps the skeleton up, the view is the error panel with that
    message. *)
Theorem details_rejected (P : Props) (st : State) (r : WorkflowRun) (e : exn) :
  prop_run P = Some r -> owner P <> "" -> repo P <> "" ->
  truthy_opt (initialContent P) = false ->
  getRunDetails (owner P) (repo P) (run_id r) = Throw e ->
  let st' := fst (fetchRunDetails P st) in
  snd (fetchRunDetails P st) = [GetRunDetails (owner P) (repo P) (run_id r)]
  /\ error st' = Some "Failed to load run details. Please try again."
  /\ runDetails st' = runDetails st
  /\ artifactContent st' = artifactContent st
  /\ contentLoading st' = contentLoading st
  /\ (processingArtifact st = false -> contentLoading st = false ->
      forall G : TrajectoryList.Guards,
        render st'
        = Ok (ErrorPanel "Failed to load run details. Please try again.")).
Proof.
  intros Hr Ho Hp Hic He. cbn zeta.
  rewrite (fetchRunDetails_guarded P st r Hr Ho Hp), Hic. cbn zeta.
  destruct (fetch_details_cases P r (setProcessingArtifact false (setLoading true st)))
    as [(e' & _ & ->)|(d & Hd & _)]; [|congruence].
  destruct (processingArtifact st) eqn:Hpa; cbn; repeat split; try discriminate.
  intros _ Hcl G. unfold render. cbn. now rewrite Hcl.
Qed.

(** X15.  Unless there is exactly one artifact and the conclusion is
    ["success"], no artifact is requested: the details are stored, the
    artifact content is [null] and no error is shown. *)
Theorem no_auto_select (P : Props) (st : State) (r : WorkflowRun)
    (details : RunDetailsResponse) :
  prop_run P = Some r -> owner P <> "" -> repo P <> "" ->
  truthy_opt (initialContent P) = false ->
  getRunDetails (owner P) (repo P) (run_id r) = Ok details ->
  (forall a, artifacts details <> Some [a]) \/ conclusion r <> Some "success" ->
  let st' := fst (fetchRunDetails P st) in
  snd (fetchRunDetails P st) = [GetRunDetails (owner P) (repo P) (run_id r)]
  /\ runDetails st' = Some details
  /\ artifactContent st' = JNull
  /\ error st' = None.
Proof.
  intros Hr Ho Hp Hic Hd Hno. cbn zeta.
  rewrite (fetchRunDetails_guarded P st r Hr Ho Hp), Hic. cbn zeta.
  destruct (fetch_details_cases P r (setProcessingArtifact false (setLoading true st)))
    as [(e' & He & _)|(d & Hd' & [(a & Ha & Hc & _)|(_ & ->)])].
  - congruence.
  - rewrite Hd in Hd'. injection Hd' as <-.
    destruct Hno as [Hno|Hno]; [now elim (Hno a) | now elim Hno].
  - rewrite Hd in Hd'. injection Hd' as <-.
    destruct (processingArtifact st); cbn; repeat split.
Qed.

(** X16.  A rejected [getArtifactContent] is swallowed: after the
    automatic selection of the single artifact of a successful run, no
    error is set, the artifact content is [null] and the content flag is
    cleared; the view is the generic one with nothing but the message
    "No artifact content available.". *)
Theorem artifact_failure_is_silent (P : Props) (st : State) (r : WorkflowRun)
    (details : RunDetailsResponse) (a : Artifact) (e : exn) :
  prop_run P = Some r -> owner P <> "" -> repo P <> "" ->
  truthy_opt (initialContent P) = false ->
  getRunDetails (owner P) (repo P) (run_id r) = Ok details ->
  artifacts details = Some [a] ->
  conclusion r = Some "success" ->
  getArtifactContent (owner P) (repo P) (artifact_id a) = Throw e ->
  let st' := fst (fetchRunDetails P st) in
  error st' = None
  /\ artifactContent st' = JNull
  /\ runDetails st' = Some details
  /\ contentLoading st' = false
  /\ processingArtifact st' = false
  /\ (processingArtifact st = false ->
      forall G : TrajectoryList.Guards,
        render st'
        = Ok (DetailsView {| artifact_data := false; history_dump := None;
                             jsonlHistory_dump := None;
                             no_content_message := true |})).
Proof.
  intros Hr Ho Hp Hic Hd Ha Hc Hg. cbn zeta.
  rewrite (fetchRunDetails_guarded P st r Hr Ho Hp), Hic. cbn zeta.
  destruct (fetch_details_cases P r (setProcessingArtifact false (setLoading true st)))
    as [(e' & He & _)|(d & Hd' & [(a' & Ha' & _ & ->)|([Hno|Hno] & _)])];
    try congruence.
  - rewrite Hd in Hd'. injection Hd' as <-.
    rewrite Ha in Ha'. injection Ha' as <-.
    destruct (handleArtifactSelect_state P a
                (setArtifactContent JNull
                   (setRunDetails (Some details)
                      (setProcessingArtifact false (setLoading true st)))))
      as (H1 & H2 & _ & _ & H5 & H6).
    cbn zeta in H1, H2, H5, H6. rewrite Hg in H6.
    remember (fst (handleArtifactSelect P (Some a) _)) as stA eqn:E in *.
    clear E. cbn in H5.
    destruct (processingArtifact st); cbn; repeat split; auto;
      try discriminate.
    intros _ G. unfold render. cbn. rewrite H1, H2, H5, H6. reflexivity.
Qed.

(** X17.  A run of the effect requests the run details at most once, an
    artifact at most once and only right after the details, and waits at
    most once, after the artifact. *)
Theorem fetch_events_shape (P : Props) (st : State) :
  let evs := snd (fetchRunDetails P st) in
  evs = []
  \/ exists r,
       prop_run P = Some r
       /\ (evs = [GetRunDetails (owner P) (repo P) (run_id r)]
           \/ exists a rest,
                evs = GetRunDetails (owner P) (repo P) (run_id r)
                      :: GetArtifactContent (owner P) (repo P) (artifact_id a)
                      :: rest
                /\ (rest = [] \/ rest = [Wait 500])).
Proof.
  cbn zeta.
  destruct (prop_run P) as [r|] eqn:Hr; [|left; unfold fetchRunDetails; now rewrite Hr].
  destruct (String.eqb_spec (owner P) "") as [Ho|Ho];
    [left; unfold fetchRunDetails; rewrite Hr, Ho; reflexivity|].
  destruct (String.eqb_spec (repo P) "") as [Hp|Hp];
    [left; unfold fetchRunDetails; rewrite Hr, Hp, orb_true_r; reflexivity|].
  rewrite (fetchRunDetails_guarded P st r Hr Ho Hp). cbn zeta.
  destruct (truthy_opt (initialContent P)); [left; reflexivity|].
  right. exists r. split; [reflexivity|].
  destruct (fetch_details_cases P r (setProcessingArtifact false (setLoading true st)))
    as [(e' & _ & ->)|(d & _ & [(a & _ & _ & ->)|(_ & ->)])];
    cbn [snd]; auto.
  right. exists a.
  destruct (handleArtifactSelect_events P a
              (setArtifactContent JNull
                 (setRunDetails (Some d)
                    (setProcessingArtifact false (setLoading true st)))))
    as (rest & -> & Hrest).
  exists rest. auto.
Qed.

Lemma more_than_50_length (elems : list json) :
  more_than_50 (opt_get (Some (JArr elems)) "length")
  = Ok (50 <? List.length elems)%nat.
Proof.
  change (more_than_50 (opt_get (Some (JArr elems)) "length"))
    with (@Ok bool (50 <? Z.of_nat (List.length elems))%Z).
  f_equal.
  destruct (Z.ltb_spec 50 (Z.of_nat (List.length elems)));
    destruct (Nat.ltb_spec 50 (List.length elems)); try reflexivity; lia.
Qed.

(** X22.  For an artifact whose content has a [history] array and no
    [jsonlHistory], selecting it waits 500 ms before showing the content
    exactly when the array has more than 50 elements; either way the
    content ends up stored and both flags cleared. *)
Theorem large_artifact_waits (P : Props) (a : Artifact) (st : State)
    (content : json) (history : list json) :
  getArtifactContent (owner P) (repo P) (artifact_id a) = Ok content ->
  opt_get (opt_get (Some content) "content") "history" = Some (JArr history) ->
  opt_get (opt_get (Some content) "content") "jsonlHistory" = None ->
  snd (handleArtifactSelect P (Some a) st)
  = GetArtifactContent (owner P) (repo P) (artifact_id a)
    :: (if (50 <? List.length history)%nat then [Wait 500] else [])
  /\ artifactContent (fst (handleArtifactSelect P (Some a) st)) = content
  /\ contentLoading (fst (handleArtifactSelect P (Some a) st)) = false
  /\ processingArtifact (fst (handleArtifactSelect P (Some a) st)) = false.
Proof.
  intros Hg Hh Hj. unfold handleArtifactSelect. rewrite Hg.
  assert (L : is_large content = Ok (50 <? List.length history)%nat).
  { unfold is_large. rewrite Hh, Hj, more_than_50_length. cbn [bind].
    now destruct (50 <? List.length history)%nat. }
  rewrite L. destruct (50 <? List.length history)%nat; cbn; repeat split.
Qed.

End RunEffect.

Section RunView.

Import RunDetails.
Context {G : TrajectoryList.Guards}.



Lemma TrajectoryList_not_array (v : json) :
  isArray v = false ->
  exists e, TrajectoryList.TrajectoryList (Some v) = Throw e.
Proof. destruct v; try discriminate; intros _; eexists; reflexivity. Qed.


End RunView.

Section UploadToView.

Import RunDetails.
Context {G : TrajectoryList.Guards} {A : Api}.

Lemma fetch_initial_content (P : Props) (st : State) (r : WorkflowRun) (ic : json) :
  prop_run P = Some r -> owner P <> "" -> repo P <> "" ->
  initialContent P = Some ic -> truthy ic = true ->
  processingArtifact st = false -> contentLoading st = false ->
  fetchRunDetails P st
  = ({| runDetails := Some {| run := r; jobs := []; artifacts := Some [] |};
        artifactContent := ic; loading := false; contentLoading := false;
        processingArtifact := false; error := None |}, []).
Proof.
  intros Hr Ho Hp Hic Ht Hpa Hcl.
  rewrite (fetchRunDetails_guarded P st r Hr Ho Hp), Hic. cbn [truthy_opt].
  rewrite Ht, Hpa. destruct st; cbn in *. now subst.
Qed.

(** X20.  What the uploader hands to the host for a sequence of objects is
    shown as that trajectory: a view opened on it makes no request and
    renders the list of exactly those items, so the header counts the
    items the pre-filter keeps. *)
Theorem uploaded_trajectory_is_listed (P : Props) (st : State) (r : WorkflowRun)
    (items : list json) :
  prop_run P = Some r -> owner P <> "" -> repo P <> "" ->
  initialContent P = Some (UploadTrajectory.trajectory_upload (JArr items)) ->
  processingArtifact st = false -> contentLoading st = false ->
  forallb Shape.object_like items = true ->
  snd (fetchRunDetails P st) = []
  /\ exists list,
       TrajectoryList.TrajectoryList (Some (JArr items)) = Ok list
       /\ render (fst (fetchRunDetails P st)) = Ok (TrajectoryViewer list)
       /\ TrajectoryList.header_count list
          = List.length (filter Shape.kept items).
Proof.
  intros Hr Ho Hp Hic Hpa Hcl O.
  rewrite (fetch_initial_content P st r _ Hr Ho Hp Hic eq_refl Hpa Hcl).
  split; [reflexivity|]. cbn [fst].
  eexists. split; [apply (TrajectoryList_object_like _ O)|].
  split; [|reflexivity].
  unfold render. cbn -[TrajectoryList.TrajectoryList].
  now rewrite (TrajectoryList_object_like _ O).
Qed.

(** X21.  What the uploader hands to the host for a classified value that
    is truthy and not a sequence (an object in the [entries] format, an
    unrecognised object, a number) is wrapped as [trajectoryData] all the
    same; a view opened on it takes the trajectory branch, and the list
    it mounts throws on [trajectory.filter]. *)
Theorem uploaded_non_sequence_throws (P : Props) (st : State) (r : WorkflowRun)
    (processed : json) :
  prop_run P = Some r -> owner P <> "" -> repo P <> "" ->
  initialContent P = Some (UploadTrajectory.trajectory_upload processed) ->
  processingArtifact st = false -> contentLoading st = false ->
  truthy processed = true -> isArray processed = false ->
  exists e, render (fst (fetchRunDetails P st)) = Throw e.
Proof.
  intros Hr Ho Hp Hic Hpa Hcl Ht Harr.
  rewrite (fetch_initial_content P st r _ Hr Ho Hp Hic eq_refl Hpa Hcl).
  cbn [fst]. unfold render. cbn -[TrajectoryList.TrajectoryList truthy].
  unfold is_trajectory. cbn -[TrajectoryList.TrajectoryList truthy].
  rewrite Ht. cbn -[TrajectoryList.TrajectoryList].
  destruct (TrajectoryList_not_array processed Harr) as [e ->]. now exists e.
Qed.

End UploadToView.

(** ** The run details view on concrete inputs *)

(** A view opened on uploaded content. *)
Lemma initial_content_no_request_witness :
  snd (RunDetails.fetchRunDetails (A := Samples.api)
         (Cases.uploaded_props Samples.two_item_artifact) RunDetails.initial)
  = [].
Proof.
  refine (proj1 (initial_content_no_request (A := Samples.api)
                   (Cases.uploaded_props Samples.two_item_artifact)
                   RunDetails.initial Samples.a_run Samples.two_item_artifact
                   _ _ _ _ _));
    solve [reflexivity | discriminate].
Defined.

(** A client that rejects the request for the details. *)
Lemma details_rejected_witness :
  RunDetails.error
    (fst (RunDetails.fetchRunDetails (A := Cases.failing_api) Samples.props
            RunDetails.initial))
  = Some "Failed to load run details. Please try again.".
Proof.
  refine (proj1 (proj2 (details_rejected (A := Cases.failing_api) Samples.props
                          RunDetails.initial Samples.a_run
                          (ErrorObj "Error" "Network Error") _ _ _ _ _)));
    solve [reflexivity | discriminate].
Defined.

(** A successful run with two artifacts. *)
Lemma no_auto_select_witness :
  snd (RunDetails.fetchRunDetails (A := Cases.two_artifacts_api) Samples.props
         RunDetails.initial)
  = [RunDetails.GetRunDetails "OpenHands" "trajectory-visualizer" 7].
Proof.
  refine (proj1 (no_auto_select (A := Cases.two_artifacts_api) Samples.props
                   RunDetails.initial Samples.a_run _ _ _ _ _ eq_refl _));
    try solve [reflexivity | discriminate].
  left. intros a. discriminate.
Defined.

(** A client that rejects the request for the artifact. *)
Lemma artifact_failure_is_silent_witness :
  RunDetails.error
    (fst (RunDetails.fetchRunDetails (A := Cases.failing_artifact_api)
            Samples.props RunDetails.initial))
  = None.
Proof.
  refine (proj1 (artifact_failure_is_silent (A := Cases.failing_artifact_api)
                   Samples.props RunDetails.initial Samples.a_run
                   Samples.the_details Samples.an_artifact
                   (ErrorObj "Error" "Network Error") _ _ _ _ _ _ _ _));
    solve [reflexivity | discriminate].
Defined.

(** The upload of a command followed by a state change, viewed. *)
Lemma uploaded_trajectory_is_listed_witness :
  exists list,
    RunDetails.render (G := Spec.guards)
      (fst (RunDetails.fetchRunDetails (A := Samples.api)
              (Cases.uploaded_props
                 (UploadTrajectory.trajectory_upload
                    (JArr (map JObj Cases.two_items))))
              RunDetails.initial))
    = Ok (RunDetails.TrajectoryViewer list)
    /\ TrajectoryList.header_count list = 1.
Proof.
  destruct (uploaded_trajectory_is_listed (G := Spec.guards) (A := Samples.api)
              (Cases.uploaded_props
                 (UploadTrajectory.trajectory_upload
                    (JArr (map JObj Cases.two_items))))
              RunDetails.initial Samples.a_run (map JObj Cases.two_items)
              eq_refl ltac:(discriminate) ltac:(discriminate)
              eq_refl eq_refl eq_refl eq_refl)
    as (_ & list & _ & Hr & Hc).
  exists list. split; [exact Hr | exact Hc].
Defined.

(** The upload of an object in the [entries] format, viewed. *)
Lemma uploaded_non_sequence_throws_witness :
  exists e,
    RunDetails.render (G := Spec.guards)
      (fst (RunDetails.fetchRunDetails (A := Samples.api)
              (Cases.uploaded_props
                 (UploadTrajectory.trajectory_upload
                    (JObj [("entries", JArr [])])))
              RunDetails.initial))
    = Throw e.
Proof.
  refine (uploaded_non_sequence_throws (G := Spec.guards) (A := Samples.api)
            (Cases.uploaded_props
               (UploadTrajectory.trajectory_upload (JObj [("entries", JArr [])])))
            RunDetails.initial Samples.a_run (JObj [("entries", JArr [])])
            _ _ _ _ _ _ _ _);
    solve [reflexivity | discriminate].
Defined.

(** Histories of 50 and of 51 entries. *)
Lemma large_artifact_waits_witness :
  snd (RunDetails.handleArtifactSelect (A := Cases.history_api 50) Samples.props
         (Some Samples.an_artifact) RunDetails.initial)
  = [RunDetails.GetArtifactContent "OpenHands" "trajectory-visualizer" 42]
  /\ snd (RunDetails.handleArtifactSelect (A := Cases.history_api 51)
            Samples.props (Some Samples.an_artifact) RunDetails.initial)
     = [RunDetails.GetArtifactContent "OpenHands" "trajectory-visualizer" 42;
        RunDetails.Wait 500].
Proof.
  split.
  - exact (proj1 (large_artifact_waits (A := Cases.history_api 50) Samples.props
                    Samples.an_artifact RunDetails.initial
                    (Cases.artifact_with_history 50)
                    (repeat Samples.openhands_item 50) eq_refl eq_refl eq_refl)).
  - exact (proj1 (large_artifact_waits (A := Cases.history_api 51) Samples.props
                    Samples.an_artifact RunDetails.initial
                    (Cases.artifact_with_history 51)
                    (repeat Samples.openhands_item 51) eq_refl eq_refl eq_refl)).
Defined.
